(** * EDCS: Exynos dual-cluster power sequencer (arch/arm/mach-exynos/edcs.c)

    A shallow embedding of the reference-counted power sequencer: the
    use-count table, [exynos_power_up], [exynos_power_down], the PMU power
    gate [exynos_core_power_control] and the bring-up code [edcs_init].

    The C functions are written in a small state-and-fault monad whose
    state holds the three statics of the file ([edcs_lock],
    [edcs_use_count], [core_count]).  Every call that leaves the file
    (MCPM coordinator, GIC, CCI, device tree, register accesses, the inline
    cache sequences, [wfi]) is recorded as an [event] of a transcript, and
    its effect on the platform is left to an abstract [Kernel] interface,
    so that the theorems hold for every coordinator and every PMU
    behaviour.  [BUG()] and a failing [BUG_ON] halt the run with the state
    as it is at that point.  [pr_debug] has no effect and is left out. *)

From Stdlib Require Import ZArith Lia Bool List String.
From stdpp Require Import base list.
Import ListNotations.

Local Open Scope Z_scope.

(** ** Machine integers *)

(** [unsigned int] arithmetic of the 32-bit ARM target. *)
Definition to_u32 (x : Z) : Z := x mod 2 ^ 32.

(** [int] arithmetic, two's complement (the kernel is built with
    -fno-strict-overflow, so [++] and [--] wrap). *)
Definition to_s32 (x : Z) : Z := (x + 2 ^ 31) mod 2 ^ 32 - 2 ^ 31.

(** ** Constants of edcs.c *)

Definition EDCS_CPUS_PER_CLUSTER : Z := 4.
Definition EDCS_CLUSTERS : Z := 2.
Definition SECONDARY_RESET : Z := Z.shiftl 1 1.

(** Constants and macros of headers that edcs.c includes
    (mach/regs-pmu.h, mach/map.h, asm/cputype.h, asm/mcpm.h, linux/errno.h).
    They are taken as parameters of the development. *)
Class Platform := {
  S5P_ARM_CORE0_CONFIGURATION : Z;
  S5P_VA_SYSRAM_NS : Z;
  S5P_CORE_LOCAL_PWR_EN : Z;
  MAX_CPUS_PER_CLUSTER : Z;
  MPIDR_AFFINITY_LEVEL : Z -> Z -> Z;
  ARM_CPU_PART_CORTEX_A15 : Z;
  CLUSTER_UP : Z;
  CLUSTER_DOWN : Z;
  ENODEV : Z;
  (** [virt_to_phys(mcpm_entry_point)] *)
  mcpm_entry_point_phys : Z
}.

Section Registers.
Context `{Platform}.

(** [_nr] is an [unsigned int] in every use, so the products below are
    [unsigned int] products; the sums are offsets from an I/O address. *)
Definition EDCS_CORE_CONFIGURATION (nr : Z) : Z :=
  S5P_ARM_CORE0_CONFIGURATION + to_u32 (nr * 0x80).
Definition EDCS_CORE_STATUS (nr : Z) : Z := EDCS_CORE_CONFIGURATION nr + 0x4.
Definition EDCS_CORE_OPTION (nr : Z) : Z := EDCS_CORE_CONFIGURATION nr + 0x8.

Definition REG_CPU_STATE_ADDR0 : Z := S5P_VA_SYSRAM_NS + 0x28.
Definition REG_CPU_STATE_ADDR (nr : Z) : Z :=
  REG_CPU_STATE_ADDR0 + to_u32 (nr * EDCS_CPUS_PER_CLUSTER).
Definition REG_ENTRY_ADDR : Z := S5P_VA_SYSRAM_NS + 0x1c.
End Registers.

(** ** Transcript of the calls that leave edcs.c *)

(** The scope of the inline cache sequence: [v7_flush_dcache_all] or
    [v7_flush_dcache_louis], each between the clearing of CR.C and the
    clearing of the AUXCR coherency bit. *)
Inductive cache_scope := WholeCluster | LocalOnly.

Inductive event :=
| E_local_irq_disable
| E_local_irq_enable
| E_arch_spin_lock
| E_arch_spin_unlock
| E_readl_relaxed (addr val : Z)
| E_wmb
| E_writel_relaxed (val addr : Z)
| E_mcpm_cpu_going_down (cpu cluster : Z)
| E_mcpm_cluster_state (cluster st : Z)
| E_gic_cpu_if_down
| E_mcpm_outbound_enter_critical (cpu cluster : Z) (ok : bool)
| E_l2_prefetch_disable
| E_cache_teardown (scope : cache_scope)
| E_cci_disable_port_by_cpu (mpidr : Z)
| E_mcpm_outbound_leave_critical (cluster st : Z)
| E_mcpm_cpu_down (cpu cluster : Z)
| E_wfi
| E_of_find_compatible_node (compat : string) (found : bool)
| E_cci_probed (probed : bool)
| E_mcpm_smp_set_ops
| E_mcpm_platform_register (ret : Z)
| E_mcpm_sync_init
| E_pr_info (msg : string).

Definition is_writel (e : event) : bool :=
  match e with E_writel_relaxed _ _ => true | _ => false end.

Definition is_cache_maintenance (e : event) : bool :=
  match e with
  | E_l2_prefetch_disable | E_cache_teardown _ => true
  | _ => false
  end.

(** Number of bus writes in a transcript. *)
Fixpoint bus_writes (tr : list event) : Z :=
  match tr with
  | [] => 0
  | e :: tr' => (if is_writel e then 1 else 0) + bus_writes tr'
  end.

(** ** The rest of the kernel and the hardware *)

(** What edcs.c consumes from its collaborators (MCPM coordinator, GIC, CCI,
    device tree, PMU and SYSRAM registers), over an abstract platform state
    [K]: the value each query returns in a given platform state, and the
    effect of each call on that state. *)
Class Kernel (K : Type) := {
  kern_step : event -> K -> K;
  readl_relaxed : Z -> K -> Z;
  __mcpm_cluster_state : Z -> K -> Z;
  __mcpm_outbound_enter_critical : Z -> Z -> K -> bool;
  of_find_compatible_node : string -> K -> bool;
  cci_probed : K -> bool;
  mcpm_platform_register : K -> Z
}.

(** The identity registers of the executing core:
    [read_cpuid_mpidr()] and [read_cpuid_part_number()]. *)
Record core := Core {
  read_cpuid_mpidr : Z;
  read_cpuid_part_number : Z
}.

(** ** Sequencer state *)

Record state (K : Type) := State {
  edcs_lock : bool;                   (* arch_spinlock_t: true when held *)
  edcs_use_count : list (list Z);     (* int [EDCS_CPUS_PER_CLUSTER][EDCS_CLUSTERS] *)
  core_count : list Z;                (* int [EDCS_CLUSTERS] *)
  kern : K;
  trace : list event
}.
Arguments State {K}.
Arguments edcs_lock {K}.
Arguments edcs_use_count {K}.
Arguments core_count {K}.
Arguments kern {K}.
Arguments trace {K}.

(** Array accesses.  Every access in edcs.c is guarded by a range check
    ([BUG_ON]) on both indices, so the out-of-range defaults below are never
    reached. *)
Definition use_get (t : list (list Z)) (cpu cluster : Z) : Z :=
  match t !! Z.to_nat cpu with
  | Some row => default 0 (row !! Z.to_nat cluster)
  | None => 0
  end.

Definition use_set (t : list (list Z)) (cpu cluster v : Z) : list (list Z) :=
  alter (fun row => <[Z.to_nat cluster := v]> row) (Z.to_nat cpu) t.

Definition cnt_get (c : list Z) (cluster : Z) : Z :=
  default 0 (c !! Z.to_nat cluster).

Definition cnt_set (c : list Z) (cluster v : Z) : list Z :=
  <[Z.to_nat cluster := v]> c.

(** ** The monad: state, fatal halt, spin *)

(** The places where edcs.c halts the executing path. *)
Inductive bug_site :=
| BUG_power_up_range      (* line 81 *)
| BUG_power_up_count      (* line 100 *)
| BUG_power_down_range    (* line 118 *)
| BUG_power_down_cluster  (* line 123 *)
| BUG_power_down_count    (* line 138 *)
| BUG_data_init_range.    (* line 235 *)

Inductive result (A : Type) :=
| Ret (a : A)
| Bug (site : bug_site)
| Spin.                   (* arch_spin_lock on a held lock: within one
                             request nobody releases it *)
Arguments Ret {A}.
Arguments Bug {A}.
Arguments Spin {A}.

Section Sequencer.
Context `{Platform} {K : Type} `{Kernel K}.

Definition M (A : Type) : Type := state K -> result A * state K.

Definition ret {A} (a : A) : M A := fun s => (Ret a, s).

Definition bind {A B} (m : M A) (k : A -> M B) : M B :=
  fun s =>
    match m s with
    | (Ret a, s') => k a s'
    | (Bug b, s') => (Bug b, s')
    | (Spin, s') => (Spin, s')
    end.

Notation "x <- m ;; k" := (bind m (fun x => k))
  (at level 100, m at next level, right associativity).
Notation "m ;; k" := (bind m (fun _ => k))
  (at level 100, right associativity).

Definition BUG {A} (site : bug_site) : M A := fun s => (Bug site, s).

Definition BUG_ON (c : bool) (site : bug_site) : M unit :=
  if c then BUG site else ret tt.

Definition when (c : bool) (m : M unit) : M unit :=
  if c then m else ret tt.

(** A call that leaves edcs.c: it is appended to the transcript and the
    platform reacts to it. *)
Definition emit (e : event) : M unit :=
  fun s =>
    (Ret tt,
     State (edcs_lock s) (edcs_use_count s) (core_count s)
           (kern_step e (kern s)) (trace s ++ [e])).

Definition query {A} (q : K -> A) : M A := fun s => (Ret (q (kern s)), s).

Definition arch_spin_lock : M unit :=
  fun s =>
    if edcs_lock s then (Spin, s)
    else emit E_arch_spin_lock
           (State true (edcs_use_count s) (core_count s) (kern s) (trace s)).

Definition arch_spin_unlock : M unit :=
  fun s =>
    emit E_arch_spin_unlock
      (State false (edcs_use_count s) (core_count s) (kern s) (trace s)).

Definition load_use_count (cpu cluster : Z) : M Z :=
  fun s => (Ret (use_get (edcs_use_count s) cpu cluster), s).

Definition store_use_count (cpu cluster v : Z) : M unit :=
  fun s =>
    (Ret tt,
     State (edcs_lock s) (use_set (edcs_use_count s) cpu cluster v)
           (core_count s) (kern s) (trace s)).

Definition load_core_count (cluster : Z) : M Z :=
  fun s => (Ret (cnt_get (core_count s) cluster), s).

Definition store_core_count (cluster v : Z) : M unit :=
  fun s =>
    (Ret tt,
     State (edcs_lock s) (edcs_use_count s)
           (cnt_set (core_count s) cluster v) (kern s) (trace s)).

(** [readl_relaxed(addr)]: the value comes from the platform. *)
Definition readl (addr : Z) : M Z :=
  v <- query (fun k => to_u32 (readl_relaxed addr k)) ;;
  emit (E_readl_relaxed addr v) ;;
  ret v.

(** [writel_relaxed(val, addr)] *)
Definition writel (val addr : Z) : M unit :=
  emit (E_writel_relaxed (to_u32 val) addr).

(** ** The PMU power gate (lines 51-71) *)

Definition exynos_core_power_control (cpu cluster : Z) (enable : bool)
  : M unit :=
  let offset := to_u32 (cluster * MAX_CPUS_PER_CLUSTER + cpu) in
  let value := to_s32 (if enable then S5P_CORE_LOCAL_PWR_EN else 0) in
  st <- readl (EDCS_CORE_STATUS offset) ;;
  if negb (Z.land st 0x3 =? to_u32 value) then
    emit E_wmb ;;
    writel value (EDCS_CORE_CONFIGURATION offset)
  else ret tt.

Definition exynos_core_power_up (cpu cluster : Z) : M unit :=
  exynos_core_power_control cpu cluster true.

Definition exynos_core_power_down (cpu cluster : Z) : M unit :=
  exynos_core_power_control cpu cluster false.

Definition set_boot_flag (cpu mode : Z) : M unit :=
  writel mode (REG_CPU_STATE_ADDR cpu).

(** ** power_up (lines 78-107)

    The parameters are [unsigned int]. *)
Definition exynos_power_up (cpu cluster : Z) : M Z :=
  let cpu := to_u32 cpu in
  let cluster := to_u32 cluster in
  BUG_ON ((EDCS_CPUS_PER_CLUSTER <=? cpu) || (EDCS_CLUSTERS <=? cluster))
         BUG_power_up_range ;;
  emit E_local_irq_disable ;;
  arch_spin_lock ;;
  n <- load_use_count cpu cluster ;;
  store_use_count cpu cluster (to_s32 (n + 1)) ;;
  n <- load_use_count cpu cluster ;;
  (if n =? 1 then
     c <- load_core_count cluster ;;
     store_core_count cluster (to_s32 (c + 1)) ;;
     set_boot_flag cpu SECONDARY_RESET ;;
     exynos_core_power_up cpu cluster
   else if negb (n =? 2) then BUG BUG_power_up_count
   else ret tt) ;;
  arch_spin_unlock ;;
  emit E_local_irq_enable ;;
  ret 0.

(** ** power_down (lines 108-219), executed by core [c] on itself *)

Definition mcpm_cluster_state (cluster : Z) : M Z :=
  st <- query (__mcpm_cluster_state cluster) ;;
  emit (E_mcpm_cluster_state cluster st) ;;
  ret st.

Definition mcpm_outbound_enter_critical (cpu cluster : Z) : M bool :=
  ok <- query (__mcpm_outbound_enter_critical cpu cluster) ;;
  emit (E_mcpm_outbound_enter_critical cpu cluster ok) ;;
  ret ok.

Definition exynos_power_down (c : core) : M unit :=
  let mpidr := to_u32 (read_cpuid_mpidr c) in
  let cpu := to_u32 (MPIDR_AFFINITY_LEVEL mpidr 0) in
  let cluster := to_u32 (MPIDR_AFFINITY_LEVEL mpidr 1) in
  BUG_ON ((EDCS_CPUS_PER_CLUSTER <=? cpu) || (EDCS_CLUSTERS <=? cluster))
         BUG_power_down_range ;;
  emit (E_mcpm_cpu_going_down cpu cluster) ;;
  arch_spin_lock ;;
  st <- mcpm_cluster_state cluster ;;
  BUG_ON (negb (st =? CLUSTER_UP)) BUG_power_down_cluster ;;
  n <- load_use_count cpu cluster ;;
  store_use_count cpu cluster (to_s32 (n - 1)) ;;
  n <- load_use_count cpu cluster ;;
  flags <-
    (if n =? 0 then
       k <- load_core_count cluster ;;
       store_core_count cluster (to_s32 (k - 1)) ;;
       k <- load_core_count cluster ;;
       ret (k =? 0, false)
     else if n =? 1 then ret (false, true)
     else BUG BUG_power_down_count) ;;
  let last_man := fst flags in
  let skip_wfi := snd flags in
  when (negb skip_wfi) (emit E_gic_cpu_if_down) ;;
  crit <- (if last_man then mcpm_outbound_enter_critical cpu cluster
           else ret false) ;;
  (if crit then
     arch_spin_unlock ;;
     when (read_cpuid_part_number c =? ARM_CPU_PART_CORTEX_A15)
          (emit E_l2_prefetch_disable) ;;
     emit (E_cache_teardown WholeCluster) ;;
     emit (E_cci_disable_port_by_cpu mpidr) ;;
     emit (E_mcpm_outbound_leave_critical cluster CLUSTER_DOWN)
   else
     arch_spin_unlock ;;
     emit (E_cache_teardown LocalOnly)) ;;
  emit (E_mcpm_cpu_down cpu cluster) ;;
  when (negb skip_wfi)
       (exynos_core_power_down cpu cluster ;;
        emit E_wfi).

(** ** Bring-up (lines 226-276), executed by the boot core [c] *)

Definition edcs_data_init (c : core) : M unit :=
  let mpidr := to_u32 (read_cpuid_mpidr c) in
  let cpu := to_u32 (MPIDR_AFFINITY_LEVEL mpidr 0) in
  let cluster := to_u32 (MPIDR_AFFINITY_LEVEL mpidr 1) in
  BUG_ON ((EDCS_CPUS_PER_CLUSTER <=? cpu) || (EDCS_CLUSTERS <=? cluster))
         BUG_data_init_range ;;
  store_use_count cpu cluster 1 ;;
  k <- load_core_count cluster ;;
  store_core_count cluster (to_s32 (k + 1)).

Definition edcs_init (c : core) : M Z :=
  node <- query (of_find_compatible_node "samsung,exynos5410") ;;
  emit (E_of_find_compatible_node "samsung,exynos5410" node) ;;
  if negb node then ret (- ENODEV)
  else
    probed <- query cci_probed ;;
    emit (E_cci_probed probed) ;;
    if negb probed then ret (- ENODEV)
    else
      writel mcpm_entry_point_phys REG_ENTRY_ADDR ;;
      edcs_data_init c ;;
      emit E_mcpm_smp_set_ops ;;
      r <- query mcpm_platform_register ;;
      emit (E_mcpm_platform_register r) ;;
      when (r =? 0)
           (emit E_mcpm_sync_init ;;
            emit (E_pr_info "EDCS power management initialized")) ;;
      ret r.

(** The statics of edcs.c before [edcs_init]: zero-filled tables and an
    unlocked lock, on platform state [k] with transcript [tr]. *)
Definition zeroed (k : K) (tr : list event) : state K :=
  State false
        (replicate (Z.to_nat EDCS_CPUS_PER_CLUSTER)
                   (replicate (Z.to_nat EDCS_CLUSTERS) 0))
        (replicate (Z.to_nat EDCS_CLUSTERS) 0)
        k tr.

(** ** Interleavings

    [exynos_power_down] touches the tables only between [arch_spin_lock]
    and [arch_spin_unlock]; cache maintenance, the notifications and the
    power gate come after the lock is released and may overlap with other
    cores' requests.  The two halves are therefore also given as separate
    steps: [power_down_locked] runs lines 113-144/190 (through
    [arch_spin_unlock]) and hands over the outcome of the election and
    [skip_wfi]; [power_down_unlocked] runs the rest. *)

Definition power_down_locked (c : core) : M (bool * bool) :=
  let mpidr := to_u32 (read_cpuid_mpidr c) in
  let cpu := to_u32 (MPIDR_AFFINITY_LEVEL mpidr 0) in
  let cluster := to_u32 (MPIDR_AFFINITY_LEVEL mpidr 1) in
  BUG_ON ((EDCS_CPUS_PER_CLUSTER <=? cpu) || (EDCS_CLUSTERS <=? cluster))
         BUG_power_down_range ;;
  emit (E_mcpm_cpu_going_down cpu cluster) ;;
  arch_spin_lock ;;
  st <- mcpm_cluster_state cluster ;;
  BUG_ON (negb (st =? CLUSTER_UP)) BUG_power_down_cluster ;;
  n <- load_use_count cpu cluster ;;
  store_use_count cpu cluster (to_s32 (n - 1)) ;;
  n <- load_use_count cpu cluster ;;
  flags <-
    (if n =? 0 then
       k <- load_core_count cluster ;;
       store_core_count cluster (to_s32 (k - 1)) ;;
       k <- load_core_count cluster ;;
       ret (k =? 0, false)
     else if n =? 1 then ret (false, true)
     else BUG BUG_power_down_count) ;;
  let last_man := fst flags in
  let skip_wfi := snd flags in
  when (negb skip_wfi) (emit E_gic_cpu_if_down) ;;
  crit <- (if last_man then mcpm_outbound_enter_critical cpu cluster
           else ret false) ;;
  arch_spin_unlock ;;
  ret (crit, skip_wfi).

Definition power_down_unlocked (c : core) (flags : bool * bool) : M unit :=
  let mpidr := to_u32 (read_cpuid_mpidr c) in
  let cpu := to_u32 (MPIDR_AFFINITY_LEVEL mpidr 0) in
  let cluster := to_u32 (MPIDR_AFFINITY_LEVEL mpidr 1) in
  let crit := fst flags in
  let skip_wfi := snd flags in
  (if crit then
     when (read_cpuid_part_number c =? ARM_CPU_PART_CORTEX_A15)
          (emit E_l2_prefetch_disable) ;;
     emit (E_cache_teardown WholeCluster) ;;
     emit (E_cci_disable_port_by_cpu mpidr) ;;
     emit (E_mcpm_outbound_leave_critical cluster CLUSTER_DOWN)
   else
     emit (E_cache_teardown LocalOnly)) ;;
  emit (E_mcpm_cpu_down cpu cluster) ;;
  when (negb skip_wfi)
       (exynos_core_power_down cpu cluster ;;
        emit E_wfi).

(** One step of an interleaved execution, in the order in which the
    requests take the lock. *)
Inductive action :=
| A_power_up (cpu cluster : Z)
| A_power_down (c : core)
| A_power_down_locked (c : core)
| A_power_down_unlocked (c : core) (crit skip_wfi : bool).

Definition step (a : action) : M unit :=
  match a with
  | A_power_up cpu cluster => exynos_power_up cpu cluster ;; ret tt
  | A_power_down c => exynos_power_down c
  | A_power_down_locked c => power_down_locked c ;; ret tt
  | A_power_down_unlocked c crit skip_wfi =>
      power_down_unlocked c (crit, skip_wfi)
  end.

Fixpoint run (acts : list action) : M unit :=
  match acts with
  | [] => ret tt
  | a :: acts' => step a ;; run acts'
  end.

End Sequencer.

(** ** The bookkeeping invariant *)

(** Number of cores of [cluster] whose use count is at least 1. *)
Fixpoint active_cores (t : list (list Z)) (cluster : Z) : Z :=
  match t with
  | [] => 0
  | row :: t' =>
      (if 1 <=? default 0 (row !! Z.to_nat cluster) then 1 else 0)
      + active_cores t' cluster
  end.

Definition use_count_legal (v : Z) : Prop := v = 0 \/ v = 1 \/ v = 2.

(** The tables have the dimensions of their C declarations, every use count
    is 0, 1 or 2, and each cluster's count is the number of its active
    cores. *)
Record tables_inv (t : list (list Z)) (cc : list Z) : Prop := {
  inv_rows : length t = Z.to_nat EDCS_CPUS_PER_CLUSTER;
  inv_cols : Forall (fun row => length row = Z.to_nat EDCS_CLUSTERS) t;
  inv_legal : Forall (Forall use_count_legal) t;
  inv_clusters : length cc = Z.to_nat EDCS_CLUSTERS;
  inv_count : forall cluster, 0 <= cluster < EDCS_CLUSTERS ->
                cnt_get cc cluster = active_cores t cluster
}.

(** The invariant as it reads on a state whose lock is free. *)
Definition sequencer_inv {K} (s : state K) : Prop :=
  edcs_lock s = false /\ tables_inv (edcs_use_count s) (core_count s).

(** ** Transcript predicates *)

(** The lock, followed along a transcript from the status [held]: no cache
    maintenance event occurs while it is held. *)
Fixpoint cache_outside_lock (held : bool) (tr : list event) : bool :=
  match tr with
  | [] => true
  | E_arch_spin_lock :: tr' => cache_outside_lock true tr'
  | E_arch_spin_unlock :: tr' => cache_outside_lock false tr'
  | e :: tr' =>
      (negb (is_cache_maintenance e) || negb held)
      && cache_outside_lock held tr'
  end.

(** The effect of a transcript on the platform. *)
Definition kern_run `{Kernel K} (tr : list event) (k : K) : K :=
  fold_left (fun k e => kern_step e k) tr k.

(** ** Vocabulary of the statements *)

(** The tables as their C types have them: the declared dimensions, every
    cell an [int]. *)
Definition is_int (v : Z) : Prop := - 2 ^ 31 <= v < 2 ^ 31.

Record tables_typed (t : list (list Z)) (cc : list Z) : Prop := {
  typed_rows : length t = Z.to_nat EDCS_CPUS_PER_CLUSTER;
  typed_cols : Forall (fun row => length row = Z.to_nat EDCS_CLUSTERS) t;
  typed_use : Forall (Forall is_int) t;
  typed_clusters : length cc = Z.to_nat EDCS_CLUSTERS;
  typed_count : Forall is_int cc
}.

Definition is_teardown (sc : cache_scope) (e : event) : bool :=
  match e, sc with
  | E_cache_teardown WholeCluster, WholeCluster => true
  | E_cache_teardown LocalOnly, LocalOnly => true
  | _, _ => false
  end.

(** The calls that only the whole-cluster branch of [exynos_power_down]
    makes. *)
Definition is_cluster_teardown (e : event) : bool :=
  match e with
  | E_l2_prefetch_disable
  | E_cache_teardown WholeCluster
  | E_cci_disable_port_by_cpu _
  | E_mcpm_outbound_leave_critical _ _ => true
  | _ => false
  end.

Definition is_enter_critical (e : event) : bool :=
  match e with E_mcpm_outbound_enter_critical _ _ _ => true | _ => false end.

Definition is_enter_critical_ok (e : event) : bool :=
  match e with
  | E_mcpm_outbound_enter_critical _ _ true => true
  | _ => false
  end.

Definition is_lock (e : event) : bool :=
  match e with E_arch_spin_lock => true | _ => false end.

Section Vocabulary.
Context `{Platform} {K : Type} `{Kernel K}.

(** The executing core's position, as lines 113-115 compute it. *)
Definition mpidr_of (c : core) : Z := to_u32 (read_cpuid_mpidr c).
Definition cpu_of (c : core) : Z :=
  to_u32 (MPIDR_AFFINITY_LEVEL (mpidr_of c) 0).
Definition cluster_of (c : core) : Z :=
  to_u32 (MPIDR_AFFINITY_LEVEL (mpidr_of c) 1).

(** The state after the external calls [tr], one [emit] each. *)
Definition emits (tr : list event) (s : state K) : state K :=
  State (edcs_lock s) (edcs_use_count s) (core_count s)
        (kern_run tr (kern s)) (trace s ++ tr).

(** The transcript of one call of the power gate on platform state [k]. *)
Definition gate_transcript (cpu cluster : Z) (enable : bool) (k : K)
  : list event :=
  let offset := to_u32 (cluster * MAX_CPUS_PER_CLUSTER + cpu) in
  let value := to_s32 (if enable then S5P_CORE_LOCAL_PWR_EN else 0) in
  let st := to_u32 (readl_relaxed (EDCS_CORE_STATUS offset) k) in
  E_readl_relaxed (EDCS_CORE_STATUS offset) st ::
  (if Z.land st 0x3 =? to_u32 value then []
   else [E_wmb;
         E_writel_relaxed (to_u32 value) (EDCS_CORE_CONFIGURATION offset)]).

(** The core state that the power gate observes on platform state [k], and
    the state it is asked for. *)
Definition gate_observed (cpu cluster : Z) (k : K) : Z :=
  let offset := to_u32 (cluster * MAX_CPUS_PER_CLUSTER + cpu) in
  Z.land (to_u32 (readl_relaxed (EDCS_CORE_STATUS offset) k)) 0x3.

Definition gate_desired (enable : bool) : Z :=
  to_u32 (to_s32 (if enable then S5P_CORE_LOCAL_PWR_EN else 0)).

(** The transcript of lines 146-218 of [exynos_power_down], on platform
    state [k]. *)
Definition unlocked_transcript (c : core) (crit skip_wfi : bool) (k : K)
  : list event :=
  let down :=
    (if crit then
       (if read_cpuid_part_number c =? ARM_CPU_PART_CORTEX_A15
        then [E_l2_prefetch_disable] else []) ++
       [E_cache_teardown WholeCluster;
        E_cci_disable_port_by_cpu (mpidr_of c);
        E_mcpm_outbound_leave_critical (cluster_of c) CLUSTER_DOWN]
     else [E_cache_teardown LocalOnly]) ++
    [E_mcpm_cpu_down (cpu_of c) (cluster_of c)] in
  if skip_wfi then down
  else down ++
       gate_transcript (cpu_of c) (cluster_of c) false (kern_run down k) ++
       [E_wfi].

End Vocabulary.

(** The calls of the teardown proper: cache maintenance and the
    whole-cluster calls. *)
Definition is_teardown_call (e : event) : bool :=
  is_cache_maintenance e || is_cluster_teardown e.

(** ** A simulated Exynos5410

    A concrete platform on which the sequencer can be run: the header
    values of the Exynos5410 tree, a PMU whose core status follows the
    configuration register at once, and a coordinator that records the
    cluster states.  It is used to exercise the theorems on concrete
    runs. *)
Module Sim.

#[export] Instance exynos5410 : Platform := {|
  S5P_ARM_CORE0_CONFIGURATION := 0xF6182000;
  S5P_VA_SYSRAM_NS := 0xF6120000;
  S5P_CORE_LOCAL_PWR_EN := 0x3;
  MAX_CPUS_PER_CLUSTER := 4;
  MPIDR_AFFINITY_LEVEL := fun mpidr level =>
    Z.land (Z.shiftr mpidr (8 * level)) 0xff;
  ARM_CPU_PART_CORTEX_A15 := 0xC0F0;
  CLUSTER_UP := 0x10;
  CLUSTER_DOWN := 0x11;
  ENODEV := 19;
  mcpm_entry_point_phys := 0x40008000
|}.

Definition CLUSTER_GOING_DOWN : Z := 0x12.

Record board := Board {
  regs : list (Z * Z);          (* register file, most recent write first *)
  clusters : list Z;            (* coordinator's state of each cluster *)
  inbound : bool;               (* an inbound core is coming up *)
  devtree : list string;        (* compatible strings of the device tree *)
  cci : bool;                   (* CCI driver probed *)
  registered : bool             (* platform ops already registered *)
}.

Fixpoint reg_read (r : list (Z * Z)) (addr : Z) : Z :=
  match r with
  | [] => 0
  | (a, v) :: r' => if a =? addr then v else reg_read r' addr
  end.

Definition is_core_configuration (addr : Z) : bool :=
  let d := addr - S5P_ARM_CORE0_CONFIGURATION in
  (0 <=? d) && (d <? 8 * 0x80) && (d mod 0x80 =? 0).

Definition reg_write (r : list (Z * Z)) (val addr : Z) : list (Z * Z) :=
  if is_core_configuration addr
  then (addr + 0x4, Z.land val 0x3) :: (addr, val) :: r
  else (addr, val) :: r.

Definition board_step (e : event) (b : board) : board :=
  match e with
  | E_writel_relaxed val addr =>
      Board (reg_write (regs b) val addr) (clusters b) (inbound b)
            (devtree b) (cci b) (registered b)
  | E_mcpm_outbound_enter_critical _ cluster true =>
      Board (regs b) (<[Z.to_nat cluster := CLUSTER_GOING_DOWN]> (clusters b))
            (inbound b) (devtree b) (cci b) (registered b)
  | E_mcpm_outbound_leave_critical cluster st =>
      Board (regs b) (<[Z.to_nat cluster := st]> (clusters b))
            (inbound b) (devtree b) (cci b) (registered b)
  | E_mcpm_platform_register 0 =>
      Board (regs b) (clusters b) (inbound b) (devtree b) (cci b) true
  | _ => b
  end.

#[export] Instance board_kernel : Kernel board := {|
  kern_step := board_step;
  readl_relaxed := fun addr b => reg_read (regs b) addr;
  __mcpm_cluster_state := fun cluster b =>
    default CLUSTER_DOWN (clusters b !! Z.to_nat cluster);
  __mcpm_outbound_enter_critical := fun _ _ b => negb (inbound b);
  of_find_compatible_node := fun compat b =>
    existsb (String.eqb compat) (devtree b);
  cci_probed := cci;
  mcpm_platform_register := fun b => if registered b then -16 else 0
|}.

(** The board at boot: core 0 of cluster 0 powered, both clusters up. *)
Definition board0 : board :=
  Board [(EDCS_CORE_STATUS 0, 0x3)] [CLUSTER_UP; CLUSTER_UP] false ["samsung,exynos5410"%string]
        true false.

(** A board without the Exynos5410 node in its device tree. *)
Definition board_other : board :=
  Board [] [CLUSTER_UP; CLUSTER_UP] false ["samsung,exynos4210"%string]
        true false.

(** Core [cpu] of [cluster]; cluster 0 holds the Cortex-A15 cores. *)
Definition core_of (cpu cluster : Z) : core :=
  Core (Z.lor (Z.shiftl cluster 8) cpu)
       (if cluster =? 0 then 0xC0F0 else 0xC070).

(** The sequencer after [edcs_init] on core 0 of cluster 0. *)
Definition booted : state board :=
  snd (edcs_init (core_of 0 0) (zeroed board0 [])).

(** Core 0 is asked up again while it is still up: its use count is 2. *)
Definition raced : state board :=
  snd (exynos_power_up 0 0 booted).

(** Core 1 of cluster 0 is up too. *)
Definition two_up : state board :=
  snd (exynos_power_up 1 0 booted).

(** The cluster of the boot core is believed down by the coordinator. *)
Definition cluster_lost : state board :=
  State false (edcs_use_count booted) (core_count booted)
        (Board (regs (kern booted)) [CLUSTER_DOWN; CLUSTER_UP] false
               (devtree (kern booted)) true true)
        (trace booted).

(** A PMU whose status registers never change: every read returns 0. *)
Definition stuck_kernel : Kernel unit := {|
  kern_step := fun _ k => k;
  readl_relaxed := fun _ _ => 0;
  __mcpm_cluster_state := fun _ _ => CLUSTER_UP;
  __mcpm_outbound_enter_critical := fun _ _ _ => true;
  of_find_compatible_node := fun _ _ => true;
  cci_probed := fun _ => true;
  mcpm_platform_register := fun _ => 0
|}.

End Sim.


(** * Properties *)

(** ** Machine integers and array accesses *)

Lemma to_u32_small (x : Z) : 0 <= x < 2 ^ 32 -> to_u32 x = x.
Proof. intros Hx. unfold to_u32. apply Z.mod_small. exact Hx. Qed.

Lemma to_u32_range (x : Z) : 0 <= to_u32 x < 2 ^ 32.
Proof. unfold to_u32. apply Z.mod_pos_bound. lia. Qed.

Lemma to_u32_idem (x : Z) : to_u32 (to_u32 x) = to_u32 x.
Proof. apply to_u32_small, to_u32_range. Qed.

Lemma to_s32_small (x : Z) : is_int x -> to_s32 x = x.
Proof.
  unfold is_int, to_s32. intros Hx.
  rewrite Z.mod_small by lia. lia.
Qed.


(** A table of the declared dimensions, spelled out. *)
Lemma tables_typed_shape t cc :
  tables_typed t cc ->
  exists a0 a1 b0 b1 c0 c1 d0 d1 k0 k1,
    t = [[a0; a1]; [b0; b1]; [c0; c1]; [d0; d1]] /\ cc = [k0; k1] /\
    Forall is_int [a0; a1; b0; b1; c0; c1; d0; d1; k0; k1].
Proof.
  intros [Hr Hc Hu Hk Hki].
  do 5 (destruct t as [|? t]; try discriminate Hr).
  do 3 (destruct cc as [|? cc]; try discriminate Hk).
  repeat match goal with
         | Hf : Forall _ (_ :: _) |- _ => apply Forall_cons in Hf; destruct Hf
         | Hf : Forall _ [] |- _ => clear Hf
         end.
  repeat match goal with
         | Hl : length ?l = Z.to_nat EDCS_CLUSTERS |- _ =>
             do 3 (destruct l as [|? l]; try discriminate Hl); clear Hl
         end.
  repeat match goal with
         | Hf : Forall _ (_ :: _) |- _ => apply Forall_cons in Hf; destruct Hf
         | Hf : Forall _ [] |- _ => clear Hf
         end.
  do 10 eexists. split; [reflexivity|]. split; [reflexivity|].
  repeat (apply List.Forall_cons; [assumption|]). apply List.Forall_nil.
Qed.

Lemma in_range_cpu (cpu : Z) :
  0 <= cpu < EDCS_CPUS_PER_CLUSTER -> cpu = 0 \/ cpu = 1 \/ cpu = 2 \/ cpu = 3.
Proof. unfold EDCS_CPUS_PER_CLUSTER. lia. Qed.

Lemma in_range_cluster (cluster : Z) :
  0 <= cluster < EDCS_CLUSTERS -> cluster = 0 \/ cluster = 1.
Proof. unfold EDCS_CLUSTERS. lia. Qed.

Lemma use_get_set t cc cpu cluster v :
  tables_typed t cc ->
  0 <= cpu < EDCS_CPUS_PER_CLUSTER -> 0 <= cluster < EDCS_CLUSTERS ->
  use_get (use_set t cpu cluster v) cpu cluster = v.
Proof.
  intros Ht Hcpu Hcl.
  destruct (tables_typed_shape _ _ Ht)
    as (a0 & a1 & b0 & b1 & c0 & c1 & d0 & d1 & k0 & k1 & -> & -> & _).
  destruct (in_range_cpu _ Hcpu) as [-> | [-> | [-> | ->]]];
    destruct (in_range_cluster _ Hcl) as [-> | ->]; reflexivity.
Qed.

Lemma cnt_get_set t cc cluster v :
  tables_typed t cc -> 0 <= cluster < EDCS_CLUSTERS ->
  cnt_get (cnt_set cc cluster v) cluster = v.
Proof.
  intros Ht Hcl.
  destruct (tables_typed_shape _ _ Ht)
    as (a0 & a1 & b0 & b1 & c0 & c1 & d0 & d1 & k0 & k1 & -> & -> & _).
  destruct (in_range_cluster _ Hcl) as [-> | ->]; reflexivity.
Qed.

Lemma range_check_passes cpu cluster :
  0 <= cpu < EDCS_CPUS_PER_CLUSTER -> 0 <= cluster < EDCS_CLUSTERS ->
  (EDCS_CPUS_PER_CLUSTER <=? cpu) || (EDCS_CLUSTERS <=? cluster) = false.
Proof.
  intros Hcpu Hcl. apply orb_false_iff. split; apply Z.leb_gt; lia.
Qed.

Lemma range_check_inv cpu cluster :
  (EDCS_CPUS_PER_CLUSTER <=? to_u32 cpu)
  || (EDCS_CLUSTERS <=? to_u32 cluster) = false ->
  0 <= to_u32 cpu < EDCS_CPUS_PER_CLUSTER /\
  0 <= to_u32 cluster < EDCS_CLUSTERS.
Proof.
  intros Hc. apply orb_false_iff in Hc. destruct Hc as [Hc1 Hc2].
  apply Z.leb_gt in Hc1, Hc2.
  pose proof (to_u32_range cpu). pose proof (to_u32_range cluster). lia.
Qed.

(** ** Running the monad *)

Section Run.
Context `{Platform} {K : Type} `{Kernel K}.

Lemma kern_run_app (tr1 tr2 : list event) (k : K) :
  kern_run (tr1 ++ tr2) k = kern_run tr2 (kern_run tr1 k).
Proof. unfold kern_run. apply fold_left_app. Qed.


Lemma exynos_core_power_control_run cpu cluster enable (s : state K) :
  exynos_core_power_control cpu cluster enable s =
  (Ret tt, emits (gate_transcript cpu cluster enable (kern s)) s).
Proof.
  unfold exynos_core_power_control, gate_transcript, emits.
  cbv [bind readl query emit writel ret].
  cbn [kern trace edcs_lock edcs_use_count core_count].
  destruct (Z.land _ 3 =? _); cbn.
  - reflexivity.
  - rewrite <- !app_assoc. reflexivity.
Qed.

End Run.

Ltac mcbv1 :=
  cbv [bind ret BUG BUG_ON when emit query arch_spin_lock arch_spin_unlock
       load_use_count store_use_count load_core_count store_core_count
       readl writel set_boot_flag mcpm_cluster_state
       mcpm_outbound_enter_critical exynos_core_power_up
       exynos_core_power_down emits];
  cbn [kern trace edcs_lock edcs_use_count core_count fst snd negb andb].

Ltac mcbv := mcbv1; repeat (progress mcbv1).

Ltac tr_norm :=
  rewrite ?kern_run_app; cbn [kern_run fold_left];
  rewrite <- ?app_assoc; cbn [app].

(** ** The sequencer's functions in closed form *)

Section ClosedForms.
Context `{Platform} {K : Type} `{Kernel K}.

Lemma exynos_power_up_run (s : state K) (cpu cluster : Z) :
  0 <= cpu < EDCS_CPUS_PER_CLUSTER -> 0 <= cluster < EDCS_CLUSTERS ->
  edcs_lock s = false ->
  tables_typed (edcs_use_count s) (core_count s) ->
  let t := edcs_use_count s in
  let cc := core_count s in
  let n := to_s32 (use_get t cpu cluster + 1) in
  let t' := use_set t cpu cluster n in
  let enter := [E_local_irq_disable; E_arch_spin_lock] in
  let leave := [E_arch_spin_unlock; E_local_irq_enable] in
  exynos_power_up cpu cluster s =
  if n =? 1 then
    let boot := enter ++ [E_writel_relaxed SECONDARY_RESET
                                            (REG_CPU_STATE_ADDR cpu)] in
    let tr := boot ++ gate_transcript cpu cluster true
                                      (kern_run boot (kern s)) ++ leave in
    (Ret 0,
     State false t' (cnt_set cc cluster (to_s32 (cnt_get cc cluster + 1)))
           (kern_run tr (kern s)) (trace s ++ tr))
  else if negb (n =? 2) then
    (Bug BUG_power_up_count,
     State true t' cc (kern_run enter (kern s)) (trace s ++ enter))
  else
    (Ret 0,
     State false t' cc (kern_run (enter ++ leave) (kern s))
           (trace s ++ enter ++ leave)).
Proof.
  intros Hcpu Hcl Hlock Ht t cc n t' enter leave.
  assert (Hu : to_u32 cpu = cpu)
    by (apply to_u32_small; unfold EDCS_CPUS_PER_CLUSTER in Hcpu; lia).
  assert (Hv : to_u32 cluster = cluster)
    by (apply to_u32_small; unfold EDCS_CLUSTERS in Hcl; lia).
  unfold exynos_power_up. rewrite Hu, Hv.
  rewrite (range_check_passes _ _ Hcpu Hcl).
  mcbv. rewrite Hlock. mcbv.
  rewrite (use_get_set _ _ _ _ _ Ht Hcpu Hcl).
  fold t cc n t'.
  destruct (n =? 1); [|destruct (negb (n =? 2))]; mcbv.
  - rewrite exynos_core_power_control_run. mcbv.
    change (to_u32 SECONDARY_RESET) with SECONDARY_RESET.
    subst enter leave. tr_norm. reflexivity.
  - subst enter. tr_norm. reflexivity.
  - subst enter leave. tr_norm. reflexivity.
Qed.

Lemma exynos_power_up_range (s : state K) (cpu cluster : Z) :
  (EDCS_CPUS_PER_CLUSTER <=? to_u32 cpu)
  || (EDCS_CLUSTERS <=? to_u32 cluster) = true ->
  exynos_power_up cpu cluster s = (Bug BUG_power_up_range, s).
Proof. intros Hr. unfold exynos_power_up. rewrite Hr. reflexivity. Qed.


Lemma exynos_power_up_u32 (s : state K) (cpu cluster : Z) :
  exynos_power_up cpu cluster s =
  exynos_power_up (to_u32 cpu) (to_u32 cluster) s.
Proof. unfold exynos_power_up. rewrite !to_u32_idem. reflexivity. Qed.

Lemma power_down_locked_run (c : core) (s : state K) :
  cpu_of c < EDCS_CPUS_PER_CLUSTER -> cluster_of c < EDCS_CLUSTERS ->
  edcs_lock s = false ->
  tables_typed (edcs_use_count s) (core_count s) ->
  let cpu := cpu_of c in
  let cluster := cluster_of c in
  let t := edcs_use_count s in
  let cc := core_count s in
  let k := kern s in
  let head := [E_mcpm_cpu_going_down cpu cluster; E_arch_spin_lock] in
  let st := __mcpm_cluster_state cluster (kern_run head k) in
  let pre := head ++ [E_mcpm_cluster_state cluster st] in
  let n := to_s32 (use_get t cpu cluster - 1) in
  let m := to_s32 (cnt_get cc cluster - 1) in
  let t' := use_set t cpu cluster n in
  let gic := pre ++ [E_gic_cpu_if_down] in
  let ok := __mcpm_outbound_enter_critical cpu cluster (kern_run gic k) in
  power_down_locked c s =
  if negb (st =? CLUSTER_UP) then
    (Bug BUG_power_down_cluster,
     State true t cc (kern_run pre k) (trace s ++ pre))
  else if n =? 0 then
    let tr :=
      if m =? 0
      then gic ++ [E_mcpm_outbound_enter_critical cpu cluster ok;
                   E_arch_spin_unlock]
      else gic ++ [E_arch_spin_unlock] in
    (Ret ((m =? 0) && ok, false),
     State false t' (cnt_set cc cluster m) (kern_run tr k) (trace s ++ tr))
  else if n =? 1 then
    let tr := pre ++ [E_arch_spin_unlock] in
    (Ret (false, true), State false t' cc (kern_run tr k) (trace s ++ tr))
  else
    (Bug BUG_power_down_count,
     State true t' cc (kern_run pre k) (trace s ++ pre)).
Proof.
  intros Hcpu Hcl Hlock Ht cpu cluster t cc k head st pre n m t' gic ok.
  assert (Hcpu' : 0 <= cpu < EDCS_CPUS_PER_CLUSTER)
    by (pose proof (to_u32_range (MPIDR_AFFINITY_LEVEL (mpidr_of c) 0));
        unfold cpu, cpu_of in *; lia).
  assert (Hcl' : 0 <= cluster < EDCS_CLUSTERS)
    by (pose proof (to_u32_range (MPIDR_AFFINITY_LEVEL (mpidr_of c) 1));
        unfold cluster, cluster_of in *; lia).
  unfold power_down_locked. fold (mpidr_of c) (cpu_of c) (cluster_of c).
  fold cpu cluster. rewrite (range_check_passes _ _ Hcpu' Hcl').
  mcbv. rewrite Hlock. mcbv. fold k. 
  change (kern_step E_arch_spin_lock
            (kern_step (E_mcpm_cpu_going_down cpu cluster) k))
    with (kern_run head k).
  fold st.
  destruct (negb (st =? CLUSTER_UP)); mcbv.
  { subst pre head. tr_norm. reflexivity. }
  rewrite (use_get_set _ _ _ _ _ Ht Hcpu' Hcl'). fold t cc n t'.
  destruct (n =? 0); [|destruct (n =? 1)]; mcbv.
  - rewrite (cnt_get_set _ _ _ _ Ht Hcl'). fold m.
    destruct (m =? 0); mcbv.
    + change (kern_step E_gic_cpu_if_down
                (kern_step (E_mcpm_cluster_state cluster st)
                           (kern_run head k)))
        with (kern_run gic k).
      fold ok. subst gic pre head. tr_norm. reflexivity.
    + subst gic pre head. tr_norm. reflexivity.
  - subst pre head. tr_norm. reflexivity.
  - subst pre head. tr_norm. reflexivity.
Qed.

Lemma power_down_locked_range (c : core) (s : state K) :
  (EDCS_CPUS_PER_CLUSTER <=? cpu_of c)
  || (EDCS_CLUSTERS <=? cluster_of c) = true ->
  power_down_locked c s = (Bug BUG_power_down_range, s).
Proof.
  intros Hr. unfold power_down_locked.
  fold (mpidr_of c) (cpu_of c) (cluster_of c). rewrite Hr. reflexivity.
Qed.

Lemma power_down_locked_spin (c : core) (s : state K) :
  (EDCS_CPUS_PER_CLUSTER <=? cpu_of c)
  || (EDCS_CLUSTERS <=? cluster_of c) = false ->
  edcs_lock s = true ->
  power_down_locked c s =
  (Spin, emits [E_mcpm_cpu_going_down (cpu_of c) (cluster_of c)] s).
Proof.
  intros Hr Hl. unfold power_down_locked.
  fold (mpidr_of c) (cpu_of c) (cluster_of c). rewrite Hr. mcbv.
  rewrite Hl. reflexivity.
Qed.

Lemma power_down_unlocked_run (c : core) (crit skip_wfi : bool)
      (s : state K) :
  power_down_unlocked c (crit, skip_wfi) s =
  (Ret tt, emits (unlocked_transcript c crit skip_wfi (kern s)) s).
Proof.
  unfold power_down_unlocked, unlocked_transcript.
  fold (mpidr_of c) (cpu_of c) (cluster_of c).
  cbn [fst snd].
  destruct crit, skip_wfi; mcbv;
    try destruct (read_cpuid_part_number c =? ARM_CPU_PART_CORTEX_A15);
    mcbv; rewrite ?exynos_core_power_control_run; mcbv;
    tr_norm; reflexivity.
Qed.

(** [exynos_power_down] is its locked half followed by its unlocked
    half. *)
Lemma exynos_power_down_phases (c : core) (s : state K) :
  exynos_power_down c s =
  bind (power_down_locked c) (power_down_unlocked c) s.
Proof.
  unfold exynos_power_down, power_down_locked, power_down_unlocked.
  fold (mpidr_of c) (cpu_of c) (cluster_of c).
  destruct ((EDCS_CPUS_PER_CLUSTER <=? cpu_of c)
            || (EDCS_CLUSTERS <=? cluster_of c)); [reflexivity|].
  mcbv. destruct (edcs_lock s); [reflexivity|]. mcbv.
  destruct (negb (_ =? CLUSTER_UP)); [reflexivity|]. mcbv.
  destruct (use_get _ _ _ =? 0); [|destruct (use_get _ _ _ =? 1)]; mcbv.
  - destruct (cnt_get _ _ =? 0); mcbv.
    + destruct (__mcpm_outbound_enter_critical _ _ _); mcbv;
        try destruct (read_cpuid_part_number c =? ARM_CPU_PART_CORTEX_A15);
        mcbv; rewrite ?exynos_core_power_control_run; reflexivity.
    + rewrite ?exynos_core_power_control_run; reflexivity.
  - reflexivity.
  - reflexivity.
Qed.

Lemma edcs_data_init_run (c : core) (s : state K) :
  edcs_data_init c s =
  if (EDCS_CPUS_PER_CLUSTER <=? cpu_of c)
     || (EDCS_CLUSTERS <=? cluster_of c)
  then (Bug BUG_data_init_range, s)
  else
    (Ret tt,
     State (edcs_lock s)
           (use_set (edcs_use_count s) (cpu_of c) (cluster_of c) 1)
           (cnt_set (core_count s) (cluster_of c)
                    (to_s32 (cnt_get (core_count s) (cluster_of c) + 1)))
           (kern s) (trace s)).
Proof.
  unfold edcs_data_init. fold (mpidr_of c) (cpu_of c) (cluster_of c).
  destruct ((EDCS_CPUS_PER_CLUSTER <=? cpu_of c)
            || (EDCS_CLUSTERS <=? cluster_of c)); reflexivity.
Qed.

End ClosedForms.

(** ** The bookkeeping invariant under the four legal transitions *)

Lemma use_count_legal_int (v : Z) : use_count_legal v -> is_int v.
Proof. unfold use_count_legal, is_int. lia. Qed.

Lemma tables_inv_shape t cc :
  tables_inv t cc ->
  exists a0 a1 b0 b1 c0 c1 d0 d1,
    t = [[a0; a1]; [b0; b1]; [c0; c1]; [d0; d1]] /\
    cc = [active_cores t 0; active_cores t 1] /\
    Forall use_count_legal [a0; a1; b0; b1; c0; c1; d0; d1].
Proof.
  intros [Hr Hc Hu Hk Hcount].
  do 5 (destruct t as [|? t]; try discriminate Hr).
  do 3 (destruct cc as [|? cc]; try discriminate Hk).
  repeat match goal with
         | Hf : Forall _ (_ :: _) |- _ => apply Forall_cons in Hf; destruct Hf
         | Hf : Forall _ [] |- _ => clear Hf
         end.
  repeat match goal with
         | Hl : length ?l = Z.to_nat EDCS_CLUSTERS |- _ =>
             do 3 (destruct l as [|? l]; try discriminate Hl); clear Hl
         end.
  repeat match goal with
         | Hf : Forall _ (_ :: _) |- _ => apply Forall_cons in Hf; destruct Hf
         | Hf : Forall _ [] |- _ => clear Hf
         end.
  do 8 eexists. split; [reflexivity|]. split.
  - pose proof (Hcount 0 ltac:(unfold EDCS_CLUSTERS; lia)) as Hk0.
    pose proof (Hcount 1 ltac:(unfold EDCS_CLUSTERS; lia)) as Hk1.
    unfold cnt_get in Hk0, Hk1. rewrite <- Hk0, <- Hk1. reflexivity.
  - repeat (apply List.Forall_cons; [assumption|]). apply List.Forall_nil.
Qed.

Lemma tables_inv_intro a0 a1 b0 b1 c0 c1 d0 d1 :
  Forall use_count_legal [a0; a1; b0; b1; c0; c1; d0; d1] ->
  let t := [[a0; a1]; [b0; b1]; [c0; c1]; [d0; d1]] in
  tables_inv t [active_cores t 0; active_cores t 1].
Proof.
  intros Hl t.
  repeat match goal with
         | Hf : Forall _ (_ :: _) |- _ => apply Forall_cons in Hf; destruct Hf
         | Hf : Forall _ [] |- _ => clear Hf
         end.
  split.
  - reflexivity.
  - repeat (apply List.Forall_cons; [reflexivity|]). apply List.Forall_nil.
  - subst t.
    repeat (apply List.Forall_cons;
            [repeat (apply List.Forall_cons; [assumption|]);
             apply List.Forall_nil|]).
    apply List.Forall_nil.
  - reflexivity.
  - intros cluster Hcl.
    destruct (in_range_cluster _ Hcl) as [-> | ->]; reflexivity.
Qed.

Lemma tables_inv_typed t cc : tables_inv t cc -> tables_typed t cc.
Proof.
  intros Hi.
  destruct (tables_inv_shape _ _ Hi)
    as (a0 & a1 & b0 & b1 & c0 & c1 & d0 & d1 & -> & -> & Hl).
  repeat match goal with
         | Hf : Forall _ (_ :: _) |- _ => apply Forall_cons in Hf; destruct Hf
         | Hf : Forall _ [] |- _ => clear Hf
         end.
  split.
  - reflexivity.
  - repeat (apply List.Forall_cons; [reflexivity|]). apply List.Forall_nil.
  - repeat (apply List.Forall_cons;
            [repeat (apply List.Forall_cons;
                     [apply use_count_legal_int; assumption|]);
             apply List.Forall_nil|]).
    apply List.Forall_nil.
  - reflexivity.
  - unfold use_count_legal in *. cbn.
    repeat (apply List.Forall_cons; [unfold is_int|]);
      try apply List.Forall_nil;
      repeat match goal with
             | |- context [1 <=? ?x] => destruct (1 <=? x)
             end; lia.
Qed.

Ltac split_legal :=
  repeat match goal with
         | Hf : Forall _ (_ :: _) |- _ => apply Forall_cons in Hf; destruct Hf
         | Hf : Forall _ [] |- _ => clear Hf
         end.

Ltac close_tables_inv :=
  match goal with
  | |- tables_inv ?t ?cc =>
      replace cc with [active_cores t 0; active_cores t 1];
      [ apply tables_inv_intro;
        repeat (apply List.Forall_cons;
                [first [assumption | unfold use_count_legal; lia]|]);
        apply List.Forall_nil
      | simpl;
        repeat match goal with
               | |- context [1 <=? ?x] => destruct (1 <=? x)
               end; reflexivity ]
  end.

Lemma to_s32_legal_succ (x : Z) :
  use_count_legal x -> to_s32 (x + 1) = x + 1.
Proof.
  intros Hx. apply to_s32_small. unfold use_count_legal, is_int in *. lia.
Qed.

Lemma to_s32_legal_pred (x : Z) :
  use_count_legal x -> to_s32 (x - 1) = x - 1.
Proof.
  intros Hx. apply to_s32_small. unfold use_count_legal, is_int in *. lia.
Qed.

Lemma tables_inv_power_up t cc cpu cluster :
  tables_inv t cc ->
  0 <= cpu < EDCS_CPUS_PER_CLUSTER -> 0 <= cluster < EDCS_CLUSTERS ->
  let n := to_s32 (use_get t cpu cluster + 1) in
  (n = 1 ->
   tables_inv (use_set t cpu cluster n)
              (cnt_set cc cluster (to_s32 (cnt_get cc cluster + 1)))) /\
  (n = 2 -> tables_inv (use_set t cpu cluster n) cc).
Proof.
  intros Hi Hcpu Hcl.
  destruct (tables_inv_shape _ _ Hi)
    as (a0 & a1 & b0 & b1 & c0 & c1 & d0 & d1 & -> & -> & Hl).
  split_legal.
  destruct (in_range_cpu _ Hcpu) as [-> | [-> | [-> | ->]]];
    destruct (in_range_cluster _ Hcl) as [-> | ->];
    unfold use_get, use_set, cnt_get, cnt_set; simpl;
    match goal with
    | |- context [to_s32 (?x + 1)] =>
        match goal with
        | Hx : use_count_legal x |- _ =>
            rewrite (to_s32_legal_succ x Hx);
            split; intros Hn;
            [ assert (Hx0 : x = 0) by lia | assert (Hx0 : x = 1) by lia ];
            clear Hx Hn; subst x
        end
    end; simpl; close_tables_inv.
Qed.

Lemma tables_inv_power_down t cc cpu cluster :
  tables_inv t cc ->
  0 <= cpu < EDCS_CPUS_PER_CLUSTER -> 0 <= cluster < EDCS_CLUSTERS ->
  let n := to_s32 (use_get t cpu cluster - 1) in
  (n = 0 ->
   tables_inv (use_set t cpu cluster n)
              (cnt_set cc cluster (to_s32 (cnt_get cc cluster - 1)))) /\
  (n = 1 -> tables_inv (use_set t cpu cluster n) cc).
Proof.
  intros Hi Hcpu Hcl.
  destruct (tables_inv_shape _ _ Hi)
    as (a0 & a1 & b0 & b1 & c0 & c1 & d0 & d1 & -> & -> & Hl).
  split_legal.
  destruct (in_range_cpu _ Hcpu) as [-> | [-> | [-> | ->]]];
    destruct (in_range_cluster _ Hcl) as [-> | ->];
    unfold use_get, use_set, cnt_get, cnt_set; simpl;
    match goal with
    | |- context [to_s32 (?x - 1)] =>
        match goal with
        | Hx : use_count_legal x |- _ =>
            rewrite (to_s32_legal_pred x Hx);
            split; intros Hn;
            [ assert (Hx0 : x = 1) by lia | assert (Hx0 : x = 2) by lia ];
            clear Hx Hn; subst x
        end
    end; simpl; close_tables_inv.
Qed.

(** The tables that [edcs_data_init] leaves from zero-filled statics. *)
Lemma tables_inv_data_init cpu cluster :
  0 <= cpu < EDCS_CPUS_PER_CLUSTER -> 0 <= cluster < EDCS_CLUSTERS ->
  let t0 := replicate (Z.to_nat EDCS_CPUS_PER_CLUSTER)
                      (replicate (Z.to_nat EDCS_CLUSTERS) 0) in
  let c0 := replicate (Z.to_nat EDCS_CLUSTERS) 0 in
  tables_inv (use_set t0 cpu cluster 1)
             (cnt_set c0 cluster (to_s32 (cnt_get c0 cluster + 1))).
Proof.
  intros Hcpu Hcl t0 c0. subst t0 c0.
  destruct (in_range_cpu _ Hcpu) as [-> | [-> | [-> | ->]]];
    destruct (in_range_cluster _ Hcl) as [-> | ->];
    match goal with
    | |- tables_inv ?t ?c =>
        let t' := eval vm_compute in t in
        let c' := eval vm_compute in c in
        change (tables_inv t' c')
    end; close_tables_inv.
Qed.

Lemma tables_inv_legal t cc cpu cluster :
  tables_inv t cc ->
  0 <= cpu < EDCS_CPUS_PER_CLUSTER -> 0 <= cluster < EDCS_CLUSTERS ->
  use_count_legal (use_get t cpu cluster).
Proof.
  intros Hi Hcpu Hcl.
  destruct (tables_inv_shape _ _ Hi)
    as (a0 & a1 & b0 & b1 & c0 & c1 & d0 & d1 & -> & -> & Hl).
  split_legal.
  destruct (in_range_cpu _ Hcpu) as [-> | [-> | [-> | ->]]];
    destruct (in_range_cluster _ Hcl) as [-> | ->]; assumption.
Qed.

(** ** Interleaved requests keep the invariant *)

Section Invariant.
Context `{Platform} {K : Type} `{Kernel K}.

Lemma cpu_of_range (c : core) :
  (EDCS_CPUS_PER_CLUSTER <=? cpu_of c)
  || (EDCS_CLUSTERS <=? cluster_of c) = false ->
  cpu_of c < EDCS_CPUS_PER_CLUSTER /\ cluster_of c < EDCS_CLUSTERS /\
  0 <= cpu_of c /\ 0 <= cluster_of c.
Proof.
  intros Hc. apply orb_false_iff in Hc. destruct Hc as [Hc1 Hc2].
  apply Z.leb_gt in Hc1, Hc2.
  pose proof (to_u32_range (MPIDR_AFFINITY_LEVEL (mpidr_of c) 0)).
  pose proof (to_u32_range (MPIDR_AFFINITY_LEVEL (mpidr_of c) 1)).
  unfold cpu_of, cluster_of in *. lia.
Qed.

Lemma exynos_power_up_preserves (s s' : state K) cpu cluster r :
  sequencer_inv s ->
  exynos_power_up cpu cluster s = (Ret r, s') ->
  sequencer_inv s'.
Proof.
  intros [Hlock Hi] Hrun.
  rewrite exynos_power_up_u32 in Hrun.
  destruct ((EDCS_CPUS_PER_CLUSTER <=? to_u32 cpu)
            || (EDCS_CLUSTERS <=? to_u32 cluster)) eqn:Hr.
  { rewrite exynos_power_up_range in Hrun
      by (rewrite !to_u32_idem; exact Hr).
    discriminate Hrun. }
  destruct (range_check_inv _ _ Hr) as [Hcpu Hcl].
  rewrite (exynos_power_up_run _ _ _ Hcpu Hcl Hlock (tables_inv_typed _ _ Hi))
    in Hrun.
  destruct (tables_inv_power_up _ _ _ _ Hi Hcpu Hcl) as [Hup1 Hup2].
  cbv zeta in Hrun, Hup1, Hup2.
  destruct (_ =? 1) eqn:Hn1 in Hrun.
  - apply Z.eqb_eq in Hn1. inversion Hrun; subst s'.
    split; [reflexivity|]. exact (Hup1 Hn1).
  - destruct (_ =? 2) eqn:Hn2 in Hrun; cbn [negb] in Hrun;
      [|discriminate Hrun].
    apply Z.eqb_eq in Hn2. inversion Hrun; subst s'.
    split; [reflexivity|]. exact (Hup2 Hn2).
Qed.

Lemma power_down_locked_preserves (s s' : state K) c flags :
  sequencer_inv s ->
  power_down_locked c s = (Ret flags, s') ->
  sequencer_inv s'.
Proof.
  intros [Hlock Hi] Hrun.
  destruct ((EDCS_CPUS_PER_CLUSTER <=? cpu_of c)
            || (EDCS_CLUSTERS <=? cluster_of c)) eqn:Hr.
  { rewrite (power_down_locked_range _ _ Hr) in Hrun. discriminate Hrun. }
  destruct (cpu_of_range _ Hr) as (Hcpu & Hcl & Hcpu0 & Hcl0).
  rewrite (power_down_locked_run _ _ Hcpu Hcl Hlock (tables_inv_typed _ _ Hi))
    in Hrun.
  destruct (tables_inv_power_down _ _ (cpu_of c) (cluster_of c) Hi
              (conj Hcpu0 Hcpu) (conj Hcl0 Hcl)) as [Hdn0 Hdn1].
  cbv zeta in Hrun, Hdn0, Hdn1.
  destruct (negb (_ =? CLUSTER_UP)) in Hrun; [discriminate Hrun|].
  destruct (_ =? 0) eqn:Hn0 in Hrun.
  - apply Z.eqb_eq in Hn0. inversion Hrun; subst s'.
    split; [reflexivity|]. exact (Hdn0 Hn0).
  - destruct (_ =? 1) eqn:Hn1 in Hrun; [|discriminate Hrun].
    apply Z.eqb_eq in Hn1. inversion Hrun; subst s'.
    split; [reflexivity|]. exact (Hdn1 Hn1).
Qed.

Lemma power_down_unlocked_preserves (s s' : state K) c flags r :
  sequencer_inv s ->
  power_down_unlocked c flags s = (r, s') ->
  r = Ret tt /\ sequencer_inv s'.
Proof.
  intros Hinv Hrun. destruct flags as [crit skip_wfi].
  rewrite power_down_unlocked_run in Hrun. inversion Hrun; subst.
  split; [reflexivity|]. exact Hinv.
Qed.

Lemma step_preserves (a : action) (s s' : state K) :
  sequencer_inv s -> step a s = (Ret tt, s') -> sequencer_inv s'.
Proof.
  intros Hinv Hrun. destruct a as [cpu cluster | c | c | c crit skip_wfi];
    cbn [step] in Hrun.
  - unfold bind, ret in Hrun.
    destruct (exynos_power_up cpu cluster s) as [[r | b |] s1] eqn:Hup;
      inversion Hrun; subst.
    exact (exynos_power_up_preserves _ _ _ _ _ Hinv Hup).
  - rewrite exynos_power_down_phases in Hrun. unfold bind in Hrun.
    destruct (power_down_locked c s) as [[flags | b |] s1] eqn:Hdn;
      try discriminate Hrun.
    pose proof (power_down_locked_preserves _ _ _ _ Hinv Hdn) as Hinv1.
    exact (proj2 (power_down_unlocked_preserves _ _ _ _ _ Hinv1 Hrun)).
  - unfold bind, ret in Hrun.
    destruct (power_down_locked c s) as [[flags | b |] s1] eqn:Hdn;
      inversion Hrun; subst.
    exact (power_down_locked_preserves _ _ _ _ Hinv Hdn).
  - exact (proj2 (power_down_unlocked_preserves _ _ _ _ _ Hinv Hrun)).
Qed.

Lemma run_app (acts1 acts2 : list action) (s s2 : state K) :
  run (acts1 ++ acts2) s = (Ret tt, s2) ->
  exists s1, run acts1 s = (Ret tt, s1) /\ run acts2 s1 = (Ret tt, s2).
Proof.
  revert s. induction acts1 as [|a acts1 IH]; intros s Hrun.
  - exists s. split; [reflexivity | exact Hrun].
  - cbn [app run] in Hrun |- *. unfold bind in Hrun |- *.
    destruct (step a s) as [[[] | b |] s'] eqn:Hstep; try discriminate Hrun.
    exact (IH _ Hrun).
Qed.

Lemma run_preserves (acts : list action) (s s' : state K) :
  sequencer_inv s -> run acts s = (Ret tt, s') -> sequencer_inv s'.
Proof.
  revert s. induction acts as [|a acts IH]; intros s Hinv Hrun.
  - inversion Hrun; subst. exact Hinv.
  - cbn [run] in Hrun. unfold bind in Hrun.
    destruct (step a s) as [[[] | b |] s1] eqn:Hstep; try discriminate Hrun.
    exact (IH _ (step_preserves _ _ _ Hinv Hstep) Hrun).
Qed.

Lemma edcs_init_run (c : core) (s : state K) :
  let compat := "samsung,exynos5410"%string in
  let node := of_find_compatible_node compat (kern s) in
  let e1 := [E_of_find_compatible_node compat node] in
  let probed := cci_probed (kern_run e1 (kern s)) in
  let e2 := e1 ++ [E_cci_probed probed] in
  let e3 := e2 ++ [E_writel_relaxed (to_u32 mcpm_entry_point_phys)
                                    REG_ENTRY_ADDR] in
  let e4 := e3 ++ [E_mcpm_smp_set_ops] in
  let r := mcpm_platform_register (kern_run e4 (kern s)) in
  let e5 := e4 ++ E_mcpm_platform_register r ::
            (if r =? 0
             then [E_mcpm_sync_init;
                   E_pr_info "EDCS power management initialized"]
             else []) in
  edcs_init c s =
  if negb node then (Ret (- ENODEV), emits e1 s)
  else if negb probed then (Ret (- ENODEV), emits e2 s)
  else if (EDCS_CPUS_PER_CLUSTER <=? cpu_of c)
          || (EDCS_CLUSTERS <=? cluster_of c)
  then (Bug BUG_data_init_range, emits e3 s)
  else
    (Ret r,
     State (edcs_lock s)
           (use_set (edcs_use_count s) (cpu_of c) (cluster_of c) 1)
           (cnt_set (core_count s) (cluster_of c)
                    (to_s32 (cnt_get (core_count s) (cluster_of c) + 1)))
           (kern_run e5 (kern s)) (trace s ++ e5)).
Proof.
  intros compat node e1 probed e2 e3 e4 r e5.
  unfold edcs_init. mcbv. fold compat node.
  destruct (negb node); [reflexivity|]. mcbv.
  change (kern_step (E_of_find_compatible_node compat node) (kern s))
    with (kern_run e1 (kern s)).
  fold probed. destruct (negb probed).
  { subst e2 e1. tr_norm. reflexivity. }
  mcbv. rewrite edcs_data_init_run.
  cbn [kern trace edcs_lock edcs_use_count core_count].
  destruct ((EDCS_CPUS_PER_CLUSTER <=? cpu_of c)
            || (EDCS_CLUSTERS <=? cluster_of c)).
  { subst e3 e2 e1. tr_norm. reflexivity. }
  mcbv.
  change (kern_step E_mcpm_smp_set_ops
            (kern_step (E_writel_relaxed (to_u32 mcpm_entry_point_phys)
                                         REG_ENTRY_ADDR)
               (kern_step (E_cci_probed probed) (kern_run e1 (kern s)))))
    with (kern_run e4 (kern s)).
  fold r. subst e5 e4 e3 e2 e1.
  destruct (r =? 0); mcbv; tr_norm; reflexivity.
Qed.

Lemma tables_inv_zeroed :
  tables_inv (replicate (Z.to_nat EDCS_CPUS_PER_CLUSTER)
                        (replicate (Z.to_nat EDCS_CLUSTERS) 0))
             (replicate (Z.to_nat EDCS_CLUSTERS) 0).
Proof.
  match goal with
  | |- tables_inv ?t ?c =>
      let t' := eval vm_compute in t in
      let c' := eval vm_compute in c in
      change (tables_inv t' c')
  end; close_tables_inv.
Qed.

Lemma edcs_init_establishes (c : core) (k : K) (tr : list event) r s0 :
  edcs_init c (zeroed k tr) = (Ret r, s0) -> sequencer_inv s0.
Proof.
  rewrite edcs_init_run. cbv zeta.
  destruct (negb (of_find_compatible_node _ _)).
  { intros Hrun. inversion Hrun; subst.
    split; [reflexivity | exact tables_inv_zeroed]. }
  destruct (negb (cci_probed _)).
  { intros Hrun. inversion Hrun; subst.
    split; [reflexivity | exact tables_inv_zeroed]. }
  destruct ((EDCS_CPUS_PER_CLUSTER <=? cpu_of c)
            || (EDCS_CLUSTERS <=? cluster_of c)) eqn:Hr.
  { intros Hrun. discriminate Hrun. }
  destruct (cpu_of_range _ Hr) as (Hcpu & Hcl & Hcpu0 & Hcl0).
  intros Hrun. inversion Hrun; subst.
  split; [reflexivity|].
  exact (tables_inv_data_init _ _ (conj Hcpu0 Hcpu) (conj Hcl0 Hcl)).
Qed.

End Invariant.

(** ** [exynos_power_down] in closed form *)

Section PowerDown.
Context `{Platform} {K : Type} `{Kernel K}.

Lemma exynos_power_down_range (c : core) (s : state K) :
  (EDCS_CPUS_PER_CLUSTER <=? cpu_of c)
  || (EDCS_CLUSTERS <=? cluster_of c) = true ->
  exynos_power_down c s = (Bug BUG_power_down_range, s).
Proof.
  intros Hr. rewrite exynos_power_down_phases. unfold bind.
  rewrite (power_down_locked_range _ _ Hr). reflexivity.
Qed.

Lemma exynos_power_down_spin (c : core) (s : state K) :
  (EDCS_CPUS_PER_CLUSTER <=? cpu_of c)
  || (EDCS_CLUSTERS <=? cluster_of c) = false ->
  edcs_lock s = true ->
  exynos_power_down c s =
  (Spin, emits [E_mcpm_cpu_going_down (cpu_of c) (cluster_of c)] s).
Proof.
  intros Hr Hl. rewrite exynos_power_down_phases. unfold bind.
  rewrite (power_down_locked_spin _ _ Hr Hl). reflexivity.
Qed.

Lemma exynos_power_down_run (c : core) (s : state K) :
  cpu_of c < EDCS_CPUS_PER_CLUSTER -> cluster_of c < EDCS_CLUSTERS ->
  edcs_lock s = false ->
  tables_typed (edcs_use_count s) (core_count s) ->
  let cpu := cpu_of c in
  let cluster := cluster_of c in
  let t := edcs_use_count s in
  let cc := core_count s in
  let k := kern s in
  let head := [E_mcpm_cpu_going_down cpu cluster; E_arch_spin_lock] in
  let st := __mcpm_cluster_state cluster (kern_run head k) in
  let pre := head ++ [E_mcpm_cluster_state cluster st] in
  let n := to_s32 (use_get t cpu cluster - 1) in
  let m := to_s32 (cnt_get cc cluster - 1) in
  let t' := use_set t cpu cluster n in
  let gic := pre ++ [E_gic_cpu_if_down] in
  let ok := __mcpm_outbound_enter_critical cpu cluster (kern_run gic k) in
  exynos_power_down c s =
  if negb (st =? CLUSTER_UP) then
    (Bug BUG_power_down_cluster,
     State true t cc (kern_run pre k) (trace s ++ pre))
  else if n =? 0 then
    let tr1 :=
      if m =? 0
      then gic ++ [E_mcpm_outbound_enter_critical cpu cluster ok;
                   E_arch_spin_unlock]
      else gic ++ [E_arch_spin_unlock] in
    let tr := tr1 ++ unlocked_transcript c ((m =? 0) && ok) false
                                         (kern_run tr1 k) in
    (Ret tt,
     State false t' (cnt_set cc cluster m) (kern_run tr k) (trace s ++ tr))
  else if n =? 1 then
    let tr1 := pre ++ [E_arch_spin_unlock] in
    let tr := tr1 ++ unlocked_transcript c false true (kern_run tr1 k) in
    (Ret tt, State false t' cc (kern_run tr k) (trace s ++ tr))
  else
    (Bug BUG_power_down_count,
     State true t' cc (kern_run pre k) (trace s ++ pre)).
Proof.
  intros Hcpu Hcl Hlock Ht cpu cluster t cc k head st pre n m t' gic ok.
  rewrite exynos_power_down_phases. unfold bind.
  rewrite (power_down_locked_run _ _ Hcpu Hcl Hlock Ht). cbv zeta.
  fold cpu cluster t cc k head st pre n m t' gic ok.
  destruct (negb (st =? CLUSTER_UP)); [reflexivity|].
  destruct (n =? 0); [|destruct (n =? 1); [|reflexivity]];
    rewrite power_down_unlocked_run; unfold emits;
    cbn [kern trace edcs_lock edcs_use_count core_count];
    rewrite <- kern_run_app; rewrite <- ?app_assoc; reflexivity.
Qed.

End PowerDown.

(** * The claims *)

Lemma tables_typed_intro a0 a1 b0 b1 c0 c1 d0 d1 k0 k1 :
  Forall is_int [a0; a1; b0; b1; c0; c1; d0; d1; k0; k1] ->
  tables_typed [[a0; a1]; [b0; b1]; [c0; c1]; [d0; d1]] [k0; k1].
Proof.
  intros Hl.
  repeat match goal with
         | Hf : Forall _ (_ :: _) |- _ => apply Forall_cons in Hf; destruct Hf
         | Hf : Forall _ [] |- _ => clear Hf
         end.
  split.
  - reflexivity.
  - repeat (apply List.Forall_cons; [reflexivity|]). apply List.Forall_nil.
  - repeat (apply List.Forall_cons;
            [repeat (apply List.Forall_cons; [assumption|]);
             apply List.Forall_nil|]).
    apply List.Forall_nil.
  - reflexivity.
  - repeat (apply List.Forall_cons; [assumption|]). apply List.Forall_nil.
Qed.

Ltac typed_tables :=
  match goal with
  | |- tables_typed ?t ?c =>
      let t' := eval vm_compute in t in
      let c' := eval vm_compute in c in
      change (tables_typed t' c')
  end;
  apply tables_typed_intro;
  repeat (apply List.Forall_cons; [unfold is_int; lia|]);
  apply List.Forall_nil.

Lemma booted_typed :
  tables_typed (edcs_use_count Sim.booted) (core_count Sim.booted).
Proof. typed_tables. Qed.

Lemma raced_typed :
  tables_typed (edcs_use_count Sim.raced) (core_count Sim.raced).
Proof. typed_tables. Qed.

Section Claims.
Context `{Platform} {K : Type} `{Kernel K}.

(** C4.  For every in-range (core, cluster), [exynos_power_up] stores the
    use count plus one.  When the new value is 1 it also increments the
    cluster's count, writes SECONDARY_RESET to the core's boot flag and
    calls the power gate with [enable = true]; when the new value is 2 it
    touches neither the cluster count nor the hardware.  In both cases it
    returns 0 with the lock released and interrupts enabled again. *)
Theorem power_up_effect (s : state K) (cpu cluster : Z) :
  0 <= cpu < EDCS_CPUS_PER_CLUSTER -> 0 <= cluster < EDCS_CLUSTERS ->
  edcs_lock s = false ->
  tables_typed (edcs_use_count s) (core_count s) ->
  let old := use_get (edcs_use_count s) cpu cluster in
  let r := exynos_power_up cpu cluster s in
  use_get (edcs_use_count (snd r)) cpu cluster = to_s32 (old + 1) /\
  (old + 1 = 1 ->
   let boot := [E_local_irq_disable; E_arch_spin_lock;
                E_writel_relaxed SECONDARY_RESET (REG_CPU_STATE_ADDR cpu)] in
   let gate := gate_transcript cpu cluster true (kern_run boot (kern s)) in
   let tr := boot ++ gate ++ [E_arch_spin_unlock; E_local_irq_enable] in
   r = (Ret 0,
        State false (use_set (edcs_use_count s) cpu cluster 1)
              (cnt_set (core_count s) cluster
                       (to_s32 (cnt_get (core_count s) cluster + 1)))
              (kern_run tr (kern s)) (trace s ++ tr))) /\
  (old + 1 = 2 ->
   let tr := [E_local_irq_disable; E_arch_spin_lock;
              E_arch_spin_unlock; E_local_irq_enable] in
   r = (Ret 0,
        State false (use_set (edcs_use_count s) cpu cluster 2)
              (core_count s) (kern_run tr (kern s)) (trace s ++ tr))).
Proof.
  intros Hcpu Hcl Hlock Ht old r. subst r.
  rewrite (exynos_power_up_run _ _ _ Hcpu Hcl Hlock Ht). cbv zeta. fold old.
  split; [|split].
  - destruct (to_s32 (old + 1) =? 1); [|destruct (negb (_ =? 2))];
      cbn [snd edcs_use_count];
      apply (use_get_set _ _ _ _ _ Ht Hcpu Hcl).
  - intros ->. change (to_s32 1 =? 1) with true. cbv iota.
    change (to_s32 1) with 1. rewrite <- !app_assoc. reflexivity.
  - intros ->. change (to_s32 2 =? 1) with false.
    change (negb (to_s32 2 =? 2)) with false. cbv iota.
    change (to_s32 2) with 2. reflexivity.
Qed.

(** C1.  Start from the statics as [edcs_init] leaves them and run any
    interleaving of power-up requests, whole power-downs, and locked and
    unlocked halves of power-downs, none of which halts.  After every
    prefix of the interleaving the lock is free, every in-range use count
    is 0, 1 or 2, and each cluster's count equals the number of its cores
    whose use count is at least 1. *)
Theorem edcs_counts_invariant
        (c : core) (k : K) (tr0 : list event) (r : Z)
        (acts1 acts2 : list action) (s0 s2 : state K) :
  edcs_init c (zeroed k tr0) = (Ret r, s0) ->
  run (acts1 ++ acts2) s0 = (Ret tt, s2) ->
  exists s1,
    run acts1 s0 = (Ret tt, s1) /\
    run acts2 s1 = (Ret tt, s2) /\
    edcs_lock s1 = false /\
    (forall cpu cluster,
        0 <= cpu < EDCS_CPUS_PER_CLUSTER -> 0 <= cluster < EDCS_CLUSTERS ->
        use_count_legal (use_get (edcs_use_count s1) cpu cluster)) /\
    (forall cluster,
        0 <= cluster < EDCS_CLUSTERS ->
        cnt_get (core_count s1) cluster
        = active_cores (edcs_use_count s1) cluster).
Proof.
  intros Hinit Hrun.
  destruct (run_app _ _ _ _ Hrun) as (s1 & Hrun1 & Hrun2).
  exists s1.
  pose proof (run_preserves _ _ _ (edcs_init_establishes _ _ _ _ _ Hinit)
                Hrun1) as [Hlock Hinv].
  repeat split; try assumption.
  - intros cpu cluster Hcpu Hcl.
    exact (tables_inv_legal _ _ _ _ Hinv Hcpu Hcl).
  - exact (inv_count _ _ Hinv).
Qed.

(** What a run of [exynos_power_down] that does not halt at the range
    check or spin on the lock had as its entry conditions. *)
Lemma exynos_power_down_entry (c : core) (s s' : state K) (r : result unit) :
  exynos_power_down c s = (r, s') ->
  r <> Bug BUG_power_down_range -> r <> Spin ->
  cpu_of c < EDCS_CPUS_PER_CLUSTER /\ cluster_of c < EDCS_CLUSTERS /\
  edcs_lock s = false.
Proof.
  intros Hrun Hr Hs.
  destruct ((EDCS_CPUS_PER_CLUSTER <=? cpu_of c)
            || (EDCS_CLUSTERS <=? cluster_of c)) eqn:Hrange.
  { rewrite (exynos_power_down_range _ _ Hrange) in Hrun.
    inversion Hrun; subst. contradiction. }
  destruct (cpu_of_range _ Hrange) as (Hcpu & Hcl & _ & _).
  destruct (edcs_lock s) eqn:Hlock.
  { rewrite (exynos_power_down_spin _ _ Hrange Hlock) in Hrun.
    inversion Hrun; subst. contradiction. }
  repeat split; assumption.
Qed.

(** C2.  In a run of [exynos_power_down] that returns, the whole-cluster
    sequence (whole-cache teardown, then [cci_disable_port_by_cpu], then
    [__mcpm_outbound_leave_critical(cluster, CLUSTER_DOWN)]) is executed
    exactly when the decrement took the use count to 0 and the cluster's
    count to 0 and [__mcpm_outbound_enter_critical] answered true; the
    attempt itself is made exactly when both counts reached 0.  In every
    other case the local-only teardown runs and none of the whole-cluster
    calls is made. *)
Theorem power_down_cluster_teardown_iff (c : core) (s s' : state K) :
  tables_typed (edcs_use_count s) (core_count s) ->
  exynos_power_down c s = (Ret tt, s') ->
  let cpu := cpu_of c in
  let cluster := cluster_of c in
  let n := to_s32 (use_get (edcs_use_count s) cpu cluster - 1) in
  let m := to_s32 (cnt_get (core_count s) cluster - 1) in
  let last_man := (n =? 0) && (m =? 0) in
  exists delta,
    trace s' = trace s ++ delta /\
    existsb is_enter_critical delta = last_man /\
    if last_man && existsb is_enter_critical_ok delta
    then
      (exists pre post,
          delta = pre ++ [E_cache_teardown WholeCluster;
                          E_cci_disable_port_by_cpu (mpidr_of c);
                          E_mcpm_outbound_leave_critical cluster CLUSTER_DOWN]
                      ++ post) /\
      existsb (is_teardown LocalOnly) delta = false
    else
      existsb (is_teardown LocalOnly) delta = true /\
      existsb is_cluster_teardown delta = false.
Proof.
  intros Ht Hrun cpu cluster n m last_man.
  destruct (exynos_power_down_entry _ _ _ _ Hrun
              ltac:(discriminate) ltac:(discriminate))
    as (Hcpu & Hcl & Hlock).
  rewrite (exynos_power_down_run _ _ Hcpu Hcl Hlock Ht) in Hrun.
  cbv zeta in Hrun. fold cpu cluster n m in Hrun.
  destruct (negb (_ =? CLUSTER_UP)) in Hrun; [discriminate Hrun|].
  subst last_man.
  destruct (n =? 0) eqn:Hn0; [|destruct (n =? 1); [|discriminate Hrun]];
    inversion Hrun; subst s'; clear Hrun; cbn [trace andb];
    eexists; (split; [reflexivity|]).
  - unfold unlocked_transcript, gate_transcript.
    destruct (m =? 0); cbn [andb].
    + destruct (__mcpm_outbound_enter_critical _ _ _).
      * destruct (read_cpuid_part_number c =? ARM_CPU_PART_CORTEX_A15);
          destruct (Z.land _ 3 =? _);
          (split; [reflexivity|]); cbn;
          (split; [|reflexivity]);
          match goal with
          | |- context [E_l2_prefetch_disable] =>
              eexists [_; _; _; _; _; _; _], _; reflexivity
          | |- _ => eexists [_; _; _; _; _; _], _; reflexivity
          end.
      * destruct (Z.land _ 3 =? _); repeat split; reflexivity.
    + destruct (Z.land _ 3 =? _); repeat split; reflexivity.
  - repeat split; reflexivity.
Qed.

(** C3.  When the decrement in [exynos_power_down] yields 1 (a power-up
    for this core went ahead), the run consists of exactly: the going-down
    notification, the lock, the cluster-state check, the unlock, the
    local-only cache teardown and the core-down notification.  So
    [gic_cpu_if_down] is not called, the power gate is not touched, there
    is no [wfi], and the function returns. *)
Theorem power_down_skip_suspend (c : core) (s : state K) :
  cpu_of c < EDCS_CPUS_PER_CLUSTER -> cluster_of c < EDCS_CLUSTERS ->
  edcs_lock s = false ->
  tables_typed (edcs_use_count s) (core_count s) ->
  let cpu := cpu_of c in
  let cluster := cluster_of c in
  __mcpm_cluster_state cluster
    (kern_run [E_mcpm_cpu_going_down cpu cluster; E_arch_spin_lock] (kern s))
  = CLUSTER_UP ->
  to_s32 (use_get (edcs_use_count s) cpu cluster - 1) = 1 ->
  let tr := [E_mcpm_cpu_going_down cpu cluster; E_arch_spin_lock;
             E_mcpm_cluster_state cluster CLUSTER_UP;
             E_arch_spin_unlock; E_cache_teardown LocalOnly;
             E_mcpm_cpu_down cpu cluster] in
  exynos_power_down c s =
  (Ret tt,
   State false (use_set (edcs_use_count s) cpu cluster 1) (core_count s)
         (kern_run tr (kern s)) (trace s ++ tr)).
Proof.
  intros Hcpu Hcl Hlock Ht cpu cluster Hup Hn tr.
  rewrite (exynos_power_down_run _ _ Hcpu Hcl Hlock Ht). cbv zeta.
  fold cpu cluster. rewrite Hup, Hn, Z.eqb_refl. reflexivity.
Qed.


(** C7.  In [exynos_power_down] the first thing after taking the lock is
    the query of the coordinator's state of the executing core's cluster.
    If the answer is not CLUSTER_UP the run halts at the BUG of line 123,
    with both tables as they were (the decrement has not happened); if it
    is CLUSTER_UP the run does not halt there. *)
Theorem power_down_cluster_state_check (c : core) (s : state K) :
  cpu_of c < EDCS_CPUS_PER_CLUSTER -> cluster_of c < EDCS_CLUSTERS ->
  edcs_lock s = false ->
  tables_typed (edcs_use_count s) (core_count s) ->
  let cpu := cpu_of c in
  let cluster := cluster_of c in
  let head := [E_mcpm_cpu_going_down cpu cluster; E_arch_spin_lock] in
  let st := __mcpm_cluster_state cluster (kern_run head (kern s)) in
  let pre := head ++ [E_mcpm_cluster_state cluster st] in
  (exists post,
      trace (snd (exynos_power_down c s)) = trace s ++ pre ++ post) /\
  (st <> CLUSTER_UP ->
   exynos_power_down c s =
   (Bug BUG_power_down_cluster,
    State true (edcs_use_count s) (core_count s)
          (kern_run pre (kern s)) (trace s ++ pre))) /\
  (st = CLUSTER_UP ->
   fst (exynos_power_down c s) <> Bug BUG_power_down_cluster).
Proof.
  intros Hcpu Hcl Hlock Ht cpu cluster head st pre.
  rewrite (exynos_power_down_run _ _ Hcpu Hcl Hlock Ht). cbv zeta.
  fold cpu cluster head st pre.
  split; [|split].
  - destruct (negb (st =? CLUSTER_UP));
      [|destruct (_ =? 0); [destruct (_ =? 0)|destruct (_ =? 1)]];
      cbn [snd trace]; rewrite <- ?app_assoc; eexists;
      reflexivity.
  - intros Hst. apply Z.eqb_neq in Hst. rewrite Hst. reflexivity.
  - intros Hst. rewrite Hst, Z.eqb_refl. cbn [negb].
    destruct (_ =? 0); [|destruct (_ =? 1)]; discriminate.
Qed.

Lemma cache_outside_lock_until_unlock (held : bool) (pre post : list event) :
  forallb (fun e => negb (is_cache_maintenance e)) pre = true ->
  cache_outside_lock held (pre ++ E_arch_spin_unlock :: post)
  = cache_outside_lock false post.
Proof.
  revert held. induction pre as [|e pre IH]; intros held Hpre.
  - reflexivity.
  - cbn [forallb] in Hpre. apply andb_true_iff in Hpre.
    destruct Hpre as [He Hpre].
    destruct e; try discriminate He; cbn [app cache_outside_lock];
      cbn [is_cache_maintenance negb orb andb]; apply IH; exact Hpre.
Qed.

Lemma cache_outside_lock_unlocked (tr : list event) :
  existsb is_lock tr = false -> cache_outside_lock false tr = true.
Proof.
  induction tr as [|e tr IH]; intros Hno.
  - reflexivity.
  - cbn [existsb] in Hno. apply orb_false_iff in Hno.
    destruct Hno as [He Hno].
    destruct e; try discriminate He; cbn [cache_outside_lock];
      rewrite ?orb_true_r; cbn [negb orb andb]; apply IH; exact Hno.
Qed.

Lemma unlocked_transcript_calls (c : core) (crit skip_wfi : bool) (k : K) :
  let post := unlocked_transcript c crit skip_wfi k in
  existsb (is_teardown WholeCluster) post
  || existsb (is_teardown LocalOnly) post = true /\
  existsb is_lock post = false.
Proof.
  unfold unlocked_transcript, gate_transcript.
  destruct crit, skip_wfi;
    try destruct (read_cpuid_part_number c =? ARM_CPU_PART_CORTEX_A15);
    try destruct (Z.land _ 3 =? _); split; reflexivity.
Qed.

(** The state in which a returning [exynos_power_down] leaves
    [arch_spin_unlock]. *)
Lemma exynos_power_down_at_unlock (c : core) (s s' : state K) :
  edcs_lock s = false ->
  tables_typed (edcs_use_count s) (core_count s) ->
  exynos_power_down c s = (Ret tt, s') ->
  exists flags s1 pre,
    power_down_locked c s = (Ret flags, s1) /\
    trace s1 = trace s ++ pre ++ [E_arch_spin_unlock] /\
    forallb (fun e => negb (is_cache_maintenance e)) pre = true /\
    edcs_lock s1 = false /\
    power_down_unlocked c flags s1 = (Ret tt, s') /\
    s' = emits (unlocked_transcript c (fst flags) (snd flags) (kern s1)) s1.
Proof.
  intros Hlock Ht Hrun.
  destruct (exynos_power_down_entry _ _ _ _ Hrun
              ltac:(discriminate) ltac:(discriminate))
    as (Hcpu & Hcl & _).
  rewrite exynos_power_down_phases in Hrun. unfold bind in Hrun.
  destruct (power_down_locked c s) as [[flags | b |] s1] eqn:Hl;
    try discriminate Hrun.
  exists flags, s1.
  assert (Hs' : s' = emits (unlocked_transcript c (fst flags) (snd flags)
                                                (kern s1)) s1).
  { destruct flags as [crit skip_wfi].
    rewrite power_down_unlocked_run in Hrun. inversion Hrun. reflexivity. }
  rewrite (power_down_locked_run _ _ Hcpu Hcl Hlock Ht) in Hl.
  cbv zeta in Hl.
  destruct (negb (_ =? CLUSTER_UP)) in Hl; [discriminate Hl|].
  destruct (_ =? 0) in Hl;
    [destruct (_ =? 0) in Hl|destruct (_ =? 1) in Hl; [|discriminate Hl]];
    inversion Hl; subst flags s1; clear Hl;
    cbn [trace edcs_lock] in *.
  - eexists [_; _; _; _; _]. split; [reflexivity|].
    split; [rewrite <- ?app_assoc; reflexivity|]. repeat split; assumption.
  - eexists [_; _; _; _]. split; [reflexivity|].
    split; [rewrite <- ?app_assoc; reflexivity|]. repeat split; assumption.
  - eexists [_; _; _]. split; [reflexivity|].
    split; [rewrite <- ?app_assoc; reflexivity|]. repeat split; assumption.
Qed.

(** C6.  In every run of [exynos_power_down] entered with the lock free,
    no cache maintenance happens while the lock is held.  A run that
    halts makes no cache maintenance call at all.  A run that returns
    passes through a state, right after [arch_spin_unlock], in which
    [edcs_lock] is free and before which no cache maintenance call has
    been made; everything after that state (lines 146-218, on either
    branch) contains the cache teardown, never takes the lock again and
    leaves [edcs_lock] and both tables as they are in that state. *)
Theorem power_down_unlock_before_cache
        (c : core) (s s' : state K) (r : result unit) :
  edcs_lock s = false ->
  tables_typed (edcs_use_count s) (core_count s) ->
  exynos_power_down c s = (r, s') ->
  exists delta,
    trace s' = trace s ++ delta /\
    cache_outside_lock false delta = true /\
    (r <> Ret tt ->
     forallb (fun e => negb (is_cache_maintenance e)) delta = true) /\
    (r = Ret tt ->
     exists pre post flags s1,
       delta = pre ++ E_arch_spin_unlock :: post /\
       forallb (fun e => negb (is_cache_maintenance e)) pre = true /\
       existsb (is_teardown WholeCluster) post
       || existsb (is_teardown LocalOnly) post = true /\
       existsb is_lock post = false /\
       power_down_locked c s = (Ret flags, s1) /\
       trace s1 = trace s ++ pre ++ [E_arch_spin_unlock] /\
       edcs_lock s1 = false /\
       power_down_unlocked c flags s1 = (Ret tt, s') /\
       trace s' = trace s1 ++ post /\
       kern s' = kern_run post (kern s1) /\
       edcs_lock s' = false /\
       edcs_use_count s' = edcs_use_count s1 /\
       core_count s' = core_count s1).
Proof.
  intros Hlock Ht Hrun.
  destruct r as [[] | b |].
  - destruct (exynos_power_down_at_unlock _ _ _ Hlock Ht Hrun)
      as (flags & s1 & pre & Hl & Htr1 & Hpre & Hlock1 & Hu & Hs').
    set (post := unlocked_transcript c (fst flags) (snd flags) (kern s1))
      in *.
    destruct (unlocked_transcript_calls c (fst flags) (snd flags) (kern s1))
      as [Htd Hnolock].
    fold post in Htd, Hnolock.
    assert (Htr' : trace s' = trace s1 ++ post)
      by (rewrite Hs'; reflexivity).
    exists (pre ++ E_arch_spin_unlock :: post).
    split.
    { rewrite Htr', Htr1, <- !app_assoc. reflexivity. }
    split.
    { rewrite (cache_outside_lock_until_unlock _ _ _ Hpre).
      exact (cache_outside_lock_unlocked _ Hnolock). }
    split; [intros Hne; contradiction|].
    intros _. exists pre, post, flags, s1.
    split; [reflexivity|]. split; [exact Hpre|].
    split; [exact Htd|]. split; [exact Hnolock|].
    split; [exact Hl|]. split; [exact Htr1|]. split; [exact Hlock1|].
    split; [exact Hu|]. split; [exact Htr'|].
    rewrite Hs'. cbn [emits kern edcs_lock edcs_use_count core_count].
    repeat split. exact Hlock1.
  - destruct ((EDCS_CPUS_PER_CLUSTER <=? cpu_of c)
              || (EDCS_CLUSTERS <=? cluster_of c)) eqn:Hrange.
    { rewrite (exynos_power_down_range _ _ Hrange) in Hrun.
      inversion Hrun; subst. exists []. rewrite app_nil_r.
      repeat split. discriminate. }
    destruct (cpu_of_range _ Hrange) as (Hcpu & Hcl & _ & _).
    rewrite (exynos_power_down_run _ _ Hcpu Hcl Hlock Ht) in Hrun.
    cbv zeta in Hrun.
    destruct (negb (_ =? CLUSTER_UP)) in Hrun;
      [|destruct (_ =? 0) in Hrun;
        [discriminate Hrun|destruct (_ =? 1) in Hrun;
                            [discriminate Hrun|]]];
      inversion Hrun; subst b s'; clear Hrun; cbn [trace];
      eexists; (split; [reflexivity|]);
      (split; [reflexivity|]);
      (split; [intros _; reflexivity | discriminate]).
  - destruct ((EDCS_CPUS_PER_CLUSTER <=? cpu_of c)
              || (EDCS_CLUSTERS <=? cluster_of c)) eqn:Hrange.
    { rewrite (exynos_power_down_range _ _ Hrange) in Hrun.
      discriminate Hrun. }
    destruct (cpu_of_range _ Hrange) as (Hcpu & Hcl & _ & _).
    rewrite (exynos_power_down_run _ _ Hcpu Hcl Hlock Ht) in Hrun.
    cbv zeta in Hrun.
    destruct (negb (_ =? CLUSTER_UP)) in Hrun;
      [|destruct (_ =? 0) in Hrun; [|destruct (_ =? 1) in Hrun]];
      discriminate Hrun.
Qed.

(** C10.  When the decrement in [exynos_power_down] yields 1, the
    cluster's count is left as it was, [__mcpm_outbound_enter_critical]
    is not called and none of the whole-cluster calls is made.
    Conversely, a run changes the cluster counts or attempts the election
    only when the decrement yields 0. *)
Theorem power_down_skip_keeps_count
        (c : core) (s s' : state K) (r : result unit) :
  edcs_lock s = false ->
  tables_typed (edcs_use_count s) (core_count s) ->
  exynos_power_down c s = (r, s') ->
  let n := to_s32 (use_get (edcs_use_count s) (cpu_of c) (cluster_of c) - 1) in
  exists delta,
    trace s' = trace s ++ delta /\
    (n = 1 ->
     core_count s' = core_count s /\
     existsb is_enter_critical delta = false /\
     existsb is_cluster_teardown delta = false) /\
    (core_count s' <> core_count s \/ existsb is_enter_critical delta = true ->
     n = 0).
Proof.
  intros Hlock Ht Hrun n.
  destruct ((EDCS_CPUS_PER_CLUSTER <=? cpu_of c)
            || (EDCS_CLUSTERS <=? cluster_of c)) eqn:Hrange.
  { rewrite (exynos_power_down_range _ _ Hrange) in Hrun.
    inversion Hrun; subst. exists []. rewrite app_nil_r.
    repeat split. intros [Hne | Hex]; [contradiction | discriminate]. }
  destruct (cpu_of_range _ Hrange) as (Hcpu & Hcl & _ & _).
  rewrite (exynos_power_down_run _ _ Hcpu Hcl Hlock Ht) in Hrun.
  cbv zeta in Hrun. fold n in Hrun.
  destruct (negb (_ =? CLUSTER_UP)) in Hrun;
    [|destruct (n =? 0) eqn:Hn0; [|destruct (n =? 1) eqn:Hn1]];
    inversion Hrun; subst r s'; clear Hrun;
    cbn [trace core_count];
    eexists; (split; [reflexivity|]);
    try (split;
         [intros _; repeat split; reflexivity
         |intros [Hne | Hex]; [contradiction | discriminate]]).
  apply Z.eqb_eq in Hn0. split; [|intros _; exact Hn0].
  intros Hn1. rewrite Hn1 in Hn0. discriminate Hn0.
Qed.

(** C8.  When the device tree has no "samsung,exynos5410" node, or the
    CCI is not probed, [edcs_init] returns -ENODEV having made only those
    queries: the lock and both tables are as they were, nothing is written
    to REG_ENTRY_ADDR, and [mcpm_platform_register] is not called. *)
Theorem edcs_init_not_applicable (c : core) (s : state K) :
  let compat := "samsung,exynos5410"%string in
  let node := of_find_compatible_node compat (kern s) in
  let probed :=
    cci_probed (kern_run [E_of_find_compatible_node compat node] (kern s)) in
  node = false \/ probed = false ->
  exists s' delta,
    edcs_init c s = (Ret (- ENODEV), s') /\
    edcs_lock s' = edcs_lock s /\
    edcs_use_count s' = edcs_use_count s /\
    core_count s' = core_count s /\
    trace s' = trace s ++ delta /\
    kern s' = kern_run delta (kern s) /\
    (delta = [E_of_find_compatible_node compat false] \/
     delta = [E_of_find_compatible_node compat true; E_cci_probed false]).
Proof.
  intros compat node probed Hna.
  rewrite edcs_init_run. cbv zeta. fold compat node probed.
  destruct node eqn:Hnode; cbn [negb].
  - destruct Hna as [Hna | Hna]; [discriminate Hna|].
    rewrite Hna. cbn [negb].
    do 2 eexists. split; [reflexivity|].
    cbn [emits edcs_lock edcs_use_count core_count trace kern].
    repeat split. right. reflexivity.
  - do 2 eexists. split; [reflexivity|].
    cbn [emits edcs_lock edcs_use_count core_count trace kern].
    repeat split. left. reflexivity.
Qed.

Lemma bus_writes_app (tr1 tr2 : list event) :
  bus_writes (tr1 ++ tr2) = bus_writes tr1 + bus_writes tr2.
Proof.
  induction tr1 as [|e tr1 IH]; cbn [app bus_writes].
  - reflexivity.
  - rewrite IH. lia.
Qed.

(** C9 (amended).  For an in-range core, each call of the power gate
    reads the core's status register first and then writes the desired
    value to the configuration register exactly when the two low status
    bits differ from it; it touches neither the lock nor the tables.
    This holds of a first call and of a second call with the same
    arguments alike, each on the status it observes.  When the status
    shows the desired state by the time of the second call, that call
    only reads the status and writes nothing: the two calls make one bus
    write if the first one observed a different state, and none if it
    observed the desired state already. *)
Theorem power_gate_idempotent
        (s : state K) (cpu cluster : Z) (enable : bool) :
  0 <= cpu < EDCS_CPUS_PER_CLUSTER -> 0 <= cluster < EDCS_CLUSTERS ->
  let offset := to_u32 (cluster * MAX_CPUS_PER_CLUSTER + cpu) in
  let status := EDCS_CORE_STATUS offset in
  let write := [E_wmb;
                E_writel_relaxed (gate_desired enable)
                                 (EDCS_CORE_CONFIGURATION offset)] in
  let r1 := exynos_core_power_control cpu cluster enable s in
  let s1 := snd r1 in
  let r2 := exynos_core_power_control cpu cluster enable s1 in
  let s2 := snd r2 in
  let settled k := gate_observed cpu cluster k =? gate_desired enable in
  fst r1 = Ret tt /\ fst r2 = Ret tt /\
  trace s1 =
    trace s ++
    E_readl_relaxed status (to_u32 (readl_relaxed status (kern s)))
    :: (if settled (kern s) then [] else write) /\
  trace s2 =
    trace s1 ++
    E_readl_relaxed status (to_u32 (readl_relaxed status (kern s1)))
    :: (if settled (kern s1) then [] else write) /\
  bus_writes (trace s1) =
    bus_writes (trace s) + (if settled (kern s) then 0 else 1) /\
  bus_writes (trace s2) =
    bus_writes (trace s1) + (if settled (kern s1) then 0 else 1) /\
  (edcs_lock s2 = edcs_lock s /\
   edcs_use_count s2 = edcs_use_count s /\
   core_count s2 = core_count s) /\
  (gate_observed cpu cluster (kern s1) = gate_desired enable ->
   trace s2 =
     trace s1 ++
     [E_readl_relaxed status (to_u32 (readl_relaxed status (kern s1)))] /\
   bus_writes (trace s2) =
     bus_writes (trace s) + (if settled (kern s) then 0 else 1)).
Proof.
  intros _ _ offset status write r1 s1 r2 s2 settled.
  assert (Hcall : forall s0 : state K,
    exynos_core_power_control cpu cluster enable s0 =
    (Ret tt,
     emits (E_readl_relaxed status (to_u32 (readl_relaxed status (kern s0)))
            :: (if settled (kern s0) then [] else write)) s0)).
  { intros s0. rewrite exynos_core_power_control_run. reflexivity. }
  assert (Hw : forall k : K,
    bus_writes (E_readl_relaxed status (to_u32 (readl_relaxed status k))
                :: (if settled k then [] else write))
    = if settled k then 0 else 1).
  { intros k. destruct (settled k); reflexivity. }
  subst s2 r2 s1 r1. rewrite !Hcall. cbn [fst snd].
  subst settled. cbv beta in *.
  unfold emits. cbn [trace kern edcs_lock edcs_use_count core_count].
  split; [reflexivity|]. split; [reflexivity|].
  split; [reflexivity|]. split; [reflexivity|].
  split; [rewrite bus_writes_app, Hw; reflexivity|].
  split; [rewrite (bus_writes_app (trace s ++ _)), Hw; reflexivity|].
  split; [repeat split|].
  intros Hsettled. apply Z.eqb_eq in Hsettled. rewrite Hsettled.
  split; [reflexivity|].
  rewrite !bus_writes_app, Hw. cbn [bus_writes is_writel]. lia.
Qed.

End Claims.

(** * Further properties of the sequencer *)

(** ** Arithmetic and table lemmas *)

Lemma to_s32_succ_pred (k : Z) : is_int k -> to_s32 (to_s32 (k + 1) - 1) = k.
Proof.
  unfold is_int, to_s32.
  change (2 ^ 31) with 2147483648. change (2 ^ 32) with 4294967296.
  intros Hk. Z.div_mod_to_equations. lia.
Qed.

Lemma to_s32_succ_is (k v : Z) :
  is_int k -> -2 ^ 31 < v -> to_s32 (k + 1) = v -> k = v - 1.
Proof.
  unfold is_int, to_s32.
  change (2 ^ 31) with 2147483648. change (2 ^ 32) with 4294967296.
  intros Hk Hv. Z.div_mod_to_equations. lia.
Qed.

Lemma to_s32_pred_is (k v : Z) :
  is_int k -> v < 2 ^ 31 - 1 -> to_s32 (k - 1) = v -> k = v + 1.
Proof.
  unfold is_int, to_s32.
  change (2 ^ 31) with 2147483648. change (2 ^ 32) with 4294967296.
  intros Hk Hv. Z.div_mod_to_equations. lia.
Qed.

Lemma to_s32_small_int (x : Z) : is_int (to_s32 x).
Proof.
  unfold is_int, to_s32.
  pose proof (Z.mod_pos_bound (x + 2 ^ 31) (2 ^ 32)). lia.
Qed.

Lemma use_get_int t cc cpu cluster :
  tables_typed t cc ->
  0 <= cpu < EDCS_CPUS_PER_CLUSTER -> 0 <= cluster < EDCS_CLUSTERS ->
  is_int (use_get t cpu cluster).
Proof.
  intros Ht Hcpu Hcl.
  destruct (tables_typed_shape _ _ Ht)
    as (a0 & a1 & b0 & b1 & c0 & c1 & d0 & d1 & k0 & k1 & -> & -> & Hl).
  split_legal.
  destruct (in_range_cpu _ Hcpu) as [-> | [-> | [-> | ->]]];
    destruct (in_range_cluster _ Hcl) as [-> | ->]; assumption.
Qed.

Lemma cnt_get_int t cc cluster :
  tables_typed t cc -> 0 <= cluster < EDCS_CLUSTERS ->
  is_int (cnt_get cc cluster).
Proof.
  intros Ht Hcl.
  destruct (tables_typed_shape _ _ Ht)
    as (a0 & a1 & b0 & b1 & c0 & c1 & d0 & d1 & k0 & k1 & -> & -> & Hl).
  split_legal.
  destruct (in_range_cluster _ Hcl) as [-> | ->]; assumption.
Qed.

Lemma use_get_set_other t cc cpu cluster v cpu' cluster' :
  tables_typed t cc ->
  0 <= cpu < EDCS_CPUS_PER_CLUSTER -> 0 <= cluster < EDCS_CLUSTERS ->
  0 <= cpu' < EDCS_CPUS_PER_CLUSTER -> 0 <= cluster' < EDCS_CLUSTERS ->
  cpu' <> cpu \/ cluster' <> cluster ->
  use_get (use_set t cpu cluster v) cpu' cluster' = use_get t cpu' cluster'.
Proof.
  intros Ht Hcpu Hcl Hcpu' Hcl' Hne.
  destruct (tables_typed_shape _ _ Ht)
    as (a0 & a1 & b0 & b1 & c0 & c1 & d0 & d1 & k0 & k1 & -> & -> & _).
  destruct (in_range_cpu _ Hcpu) as [-> | [-> | [-> | ->]]];
    destruct (in_range_cluster _ Hcl) as [-> | ->];
    destruct (in_range_cpu _ Hcpu') as [-> | [-> | [-> | ->]]];
    destruct (in_range_cluster _ Hcl') as [-> | ->];
    first [reflexivity | exfalso; lia].
Qed.

Lemma cnt_get_set_other t cc cluster v cluster' :
  tables_typed t cc ->
  0 <= cluster < EDCS_CLUSTERS -> 0 <= cluster' < EDCS_CLUSTERS ->
  cluster' <> cluster ->
  cnt_get (cnt_set cc cluster v) cluster' = cnt_get cc cluster'.
Proof.
  intros Ht Hcl Hcl' Hne.
  destruct (tables_typed_shape _ _ Ht)
    as (a0 & a1 & b0 & b1 & c0 & c1 & d0 & d1 & k0 & k1 & -> & -> & _).
  destruct (in_range_cluster _ Hcl) as [-> | ->];
    destruct (in_range_cluster _ Hcl') as [-> | ->];
    first [reflexivity | exfalso; lia].
Qed.

Lemma use_set_typed t cc cpu cluster v :
  tables_typed t cc -> is_int v ->
  0 <= cpu < EDCS_CPUS_PER_CLUSTER -> 0 <= cluster < EDCS_CLUSTERS ->
  tables_typed (use_set t cpu cluster v) cc.
Proof.
  intros Ht Hv Hcpu Hcl.
  destruct (tables_typed_shape _ _ Ht)
    as (a0 & a1 & b0 & b1 & c0 & c1 & d0 & d1 & k0 & k1 & -> & -> & Hl).
  split_legal.
  destruct (in_range_cpu _ Hcpu) as [-> | [-> | [-> | ->]]];
    destruct (in_range_cluster _ Hcl) as [-> | ->];
    apply tables_typed_intro;
    repeat (apply List.Forall_cons; [assumption|]); apply List.Forall_nil.
Qed.

Lemma cnt_set_typed t cc cluster v :
  tables_typed t cc -> is_int v -> 0 <= cluster < EDCS_CLUSTERS ->
  tables_typed t (cnt_set cc cluster v).
Proof.
  intros Ht Hv Hcl.
  destruct (tables_typed_shape _ _ Ht)
    as (a0 & a1 & b0 & b1 & c0 & c1 & d0 & d1 & k0 & k1 & -> & -> & Hl).
  split_legal.
  destruct (in_range_cluster _ Hcl) as [-> | ->];
    apply tables_typed_intro;
    repeat (apply List.Forall_cons; [assumption|]); apply List.Forall_nil.
Qed.

Lemma use_set_set t cc cpu cluster v :
  tables_typed t cc ->
  0 <= cpu < EDCS_CPUS_PER_CLUSTER -> 0 <= cluster < EDCS_CLUSTERS ->
  use_set (use_set t cpu cluster v) cpu cluster (use_get t cpu cluster) = t.
Proof.
  intros Ht Hcpu Hcl.
  destruct (tables_typed_shape _ _ Ht)
    as (a0 & a1 & b0 & b1 & c0 & c1 & d0 & d1 & k0 & k1 & -> & -> & _).
  destruct (in_range_cpu _ Hcpu) as [-> | [-> | [-> | ->]]];
    destruct (in_range_cluster _ Hcl) as [-> | ->]; reflexivity.
Qed.

Lemma cnt_set_set t cc cluster v :
  tables_typed t cc -> 0 <= cluster < EDCS_CLUSTERS ->
  cnt_set (cnt_set cc cluster v) cluster (cnt_get cc cluster) = cc.
Proof.
  intros Ht Hcl.
  destruct (tables_typed_shape _ _ Ht)
    as (a0 & a1 & b0 & b1 & c0 & c1 & d0 & d1 & k0 & k1 & -> & -> & _).
  destruct (in_range_cluster _ Hcl) as [-> | ->]; reflexivity.
Qed.

Section Further.
Context `{Platform} {K : Type} `{Kernel K}.

(** ** Range checks *)

(** What is left of [exynos_power_up] after its range check, whatever the
    tables hold. *)
Lemma exynos_power_up_past_range (s : state K) (cpu cluster : Z) :
  (EDCS_CPUS_PER_CLUSTER <=? to_u32 cpu)
  || (EDCS_CLUSTERS <=? to_u32 cluster) = false ->
  fst (exynos_power_up cpu cluster s) <> Bug BUG_power_up_range.
Proof.
  intros Hr. unfold exynos_power_up. rewrite Hr. mcbv.
  destruct (edcs_lock s); [discriminate|]. mcbv.
  destruct (use_get _ _ _ =? 1); mcbv.
  - rewrite exynos_core_power_control_run. discriminate.
  - destruct (use_get _ _ _ =? 2); mcbv; discriminate.
Qed.

(** X1.  [exynos_power_up] halts at the BUG_ON of line 81 exactly when
    the core index is at least 4 or the cluster index at least 2, and then
    nothing has happened: no interrupt masking, no lock, no table
    access. *)
Theorem power_up_range_check (s : state K) (cpu cluster : Z) :
  (fst (exynos_power_up cpu cluster s) = Bug BUG_power_up_range <->
   EDCS_CPUS_PER_CLUSTER <= to_u32 cpu \/ EDCS_CLUSTERS <= to_u32 cluster) /\
  (fst (exynos_power_up cpu cluster s) = Bug BUG_power_up_range ->
   snd (exynos_power_up cpu cluster s) = s).
Proof.
  destruct ((EDCS_CPUS_PER_CLUSTER <=? to_u32 cpu)
            || (EDCS_CLUSTERS <=? to_u32 cluster)) eqn:Hr.
  - rewrite (exynos_power_up_range _ _ _ Hr). cbn [fst snd].
    apply orb_true_iff in Hr. rewrite !Z.leb_le in Hr.
    split; [split; [intros _; exact Hr | reflexivity] | reflexivity].
  - pose proof (exynos_power_up_past_range s _ _ Hr) as Hne.
    apply orb_false_iff in Hr. rewrite !Z.leb_gt in Hr.
    split; [split|]; intros Hc; [contradiction | lia | contradiction].
Qed.

Lemma exynos_power_down_past_range (c : core) (s : state K) :
  (EDCS_CPUS_PER_CLUSTER <=? cpu_of c)
  || (EDCS_CLUSTERS <=? cluster_of c) = false ->
  fst (exynos_power_down c s) <> Bug BUG_power_down_range.
Proof.
  intros Hr. unfold exynos_power_down.
  fold (mpidr_of c) (cpu_of c) (cluster_of c). rewrite Hr. mcbv.
  destruct (edcs_lock s); [discriminate|]. mcbv.
  destruct (negb (_ =? CLUSTER_UP)); [discriminate|]. mcbv.
  destruct (use_get _ _ _ =? 0); [|destruct (use_get _ _ _ =? 1)]; mcbv.
  - destruct (cnt_get _ _ =? 0); mcbv.
    + destruct (__mcpm_outbound_enter_critical _ _ _); mcbv;
        try destruct (read_cpuid_part_number c =? ARM_CPU_PART_CORTEX_A15);
        mcbv; rewrite ?exynos_core_power_control_run; discriminate.
    + rewrite ?exynos_core_power_control_run; discriminate.
  - discriminate.
  - discriminate.
Qed.

(** X2.  [exynos_power_down] halts at the BUG_ON of line 118 exactly when
    the executing core's MPIDR gives a core index of at least 4 or a
    cluster index of at least 2, and then the coordinator has not been
    told that the core is going down and nothing else has happened. *)
Theorem power_down_range_check (c : core) (s : state K) :
  (fst (exynos_power_down c s) = Bug BUG_power_down_range <->
   EDCS_CPUS_PER_CLUSTER <= cpu_of c \/ EDCS_CLUSTERS <= cluster_of c) /\
  (fst (exynos_power_down c s) = Bug BUG_power_down_range ->
   snd (exynos_power_down c s) = s).
Proof.
  destruct ((EDCS_CPUS_PER_CLUSTER <=? cpu_of c)
            || (EDCS_CLUSTERS <=? cluster_of c)) eqn:Hr.
  - rewrite (exynos_power_down_range _ _ Hr). cbn [fst snd].
    apply orb_true_iff in Hr. rewrite !Z.leb_le in Hr.
    split; [split; [intros _; exact Hr | reflexivity] | reflexivity].
  - pose proof (exynos_power_down_past_range c s Hr) as Hne.
    apply orb_false_iff in Hr. rewrite !Z.leb_gt in Hr.
    split; [split|]; intros Hc; [contradiction | lia | contradiction].
Qed.

(** ** The fatal branch of power_up *)

(** X3.  Past the range check and with the lock free, [exynos_power_up]
    halts at the BUG of line 100 exactly when the incremented use count is
    neither 1 nor 2.  It halts with the incremented value stored, the lock
    still held and interrupts still disabled; the cluster count and the
    hardware are untouched. *)
Theorem power_up_fatal_count (s : state K) (cpu cluster : Z) :
  0 <= cpu < EDCS_CPUS_PER_CLUSTER -> 0 <= cluster < EDCS_CLUSTERS ->
  edcs_lock s = false ->
  tables_typed (edcs_use_count s) (core_count s) ->
  let n := to_s32 (use_get (edcs_use_count s) cpu cluster + 1) in
  let enter := [E_local_irq_disable; E_arch_spin_lock] in
  (fst (exynos_power_up cpu cluster s) = Bug BUG_power_up_count <->
   n <> 1 /\ n <> 2) /\
  (n <> 1 -> n <> 2 ->
   exynos_power_up cpu cluster s =
   (Bug BUG_power_up_count,
    State true (use_set (edcs_use_count s) cpu cluster n) (core_count s)
          (kern_run enter (kern s)) (trace s ++ enter))).
Proof.
  intros Hcpu Hcl Hlock Ht n enter.
  rewrite (exynos_power_up_run _ _ _ Hcpu Hcl Hlock Ht). cbv zeta.
  fold n enter.
  destruct (n =? 1) eqn:Hn1; [|destruct (n =? 2) eqn:Hn2]; cbn [negb fst].
  - apply Z.eqb_eq in Hn1. split.
    + split; [discriminate | intros [Hne _]; contradiction].
    + intros Hne. contradiction.
  - apply Z.eqb_eq in Hn2. split.
    + split; [discriminate | intros [_ Hne]; contradiction].
    + intros _ Hne. contradiction.
  - apply Z.eqb_neq in Hn1, Hn2. split.
    + split; [intros _; exact (conj Hn1 Hn2) | reflexivity].
    + reflexivity.
Qed.

(** ** Frame *)

Lemma exynos_power_up_tables (s : state K) (cpu cluster : Z) :
  0 <= cpu < EDCS_CPUS_PER_CLUSTER -> 0 <= cluster < EDCS_CLUSTERS ->
  tables_typed (edcs_use_count s) (core_count s) ->
  let s' := snd (exynos_power_up cpu cluster s) in
  (edcs_use_count s' = edcs_use_count s \/
   exists v, edcs_use_count s' = use_set (edcs_use_count s) cpu cluster v) /\
  (core_count s' = core_count s \/
   exists v, core_count s' = cnt_set (core_count s) cluster v).
Proof.
  intros Hcpu Hcl Ht.
  destruct (edcs_lock s) eqn:Hlock.
  - unfold exynos_power_up.
    rewrite !to_u32_small
      by (unfold EDCS_CPUS_PER_CLUSTER, EDCS_CLUSTERS in *; lia).
    rewrite (range_check_passes _ _ Hcpu Hcl). mcbv. rewrite Hlock.
    cbn [snd edcs_use_count core_count]. split; left; reflexivity.
  - rewrite (exynos_power_up_run _ _ _ Hcpu Hcl Hlock Ht). cbv zeta.
    destruct (_ =? 1); [|destruct (negb (_ =? 2))];
      cbn [snd edcs_use_count core_count];
      (split; [right; eexists; reflexivity|]);
      first [left; reflexivity | right; eexists; reflexivity].
Qed.

Lemma exynos_power_down_tables (c : core) (s : state K) :
  tables_typed (edcs_use_count s) (core_count s) ->
  let s' := snd (exynos_power_down c s) in
  (edcs_use_count s' = edcs_use_count s \/
   exists v, edcs_use_count s'
             = use_set (edcs_use_count s) (cpu_of c) (cluster_of c) v) /\
  (core_count s' = core_count s \/
   exists v, core_count s' = cnt_set (core_count s) (cluster_of c) v).
Proof.
  intros Ht.
  destruct ((EDCS_CPUS_PER_CLUSTER <=? cpu_of c)
            || (EDCS_CLUSTERS <=? cluster_of c)) eqn:Hrange.
  { rewrite (exynos_power_down_range _ _ Hrange).
    split; left; reflexivity. }
  destruct (cpu_of_range _ Hrange) as (Hcpu & Hcl & _ & _).
  destruct (edcs_lock s) eqn:Hlock.
  { rewrite (exynos_power_down_spin _ _ Hrange Hlock).
    split; left; reflexivity. }
  rewrite (exynos_power_down_run _ _ Hcpu Hcl Hlock Ht). cbv zeta.
  destruct (negb (_ =? CLUSTER_UP));
    [|destruct (_ =? 0); [|destruct (_ =? 1)]];
    cbn [snd edcs_use_count core_count];
    (split; [first [left; reflexivity | right; eexists; reflexivity]|]);
    first [left; reflexivity | right; eexists; reflexivity].
Qed.

(** X4.  Whatever their outcome, [exynos_power_up] and
    [exynos_power_down] change the use count of no core other than the
    one they are called for, and the count of no other cluster. *)
Theorem power_requests_frame
        (s : state K) (cpu cluster : Z) (c : core) (cpu' cluster' : Z) :
  tables_typed (edcs_use_count s) (core_count s) ->
  0 <= cpu' < EDCS_CPUS_PER_CLUSTER -> 0 <= cluster' < EDCS_CLUSTERS ->
  let up := snd (exynos_power_up cpu cluster s) in
  let down := snd (exynos_power_down c s) in
  (cpu' <> to_u32 cpu \/ cluster' <> to_u32 cluster ->
   use_get (edcs_use_count up) cpu' cluster'
   = use_get (edcs_use_count s) cpu' cluster') /\
  (cluster' <> to_u32 cluster ->
   cnt_get (core_count up) cluster' = cnt_get (core_count s) cluster') /\
  (cpu' <> cpu_of c \/ cluster' <> cluster_of c ->
   use_get (edcs_use_count down) cpu' cluster'
   = use_get (edcs_use_count s) cpu' cluster') /\
  (cluster' <> cluster_of c ->
   cnt_get (core_count down) cluster' = cnt_get (core_count s) cluster').
Proof.
  intros Ht Hcpu' Hcl' up down.
  assert (Hup :
    (cpu' <> to_u32 cpu \/ cluster' <> to_u32 cluster ->
     use_get (edcs_use_count up) cpu' cluster'
     = use_get (edcs_use_count s) cpu' cluster') /\
    (cluster' <> to_u32 cluster ->
     cnt_get (core_count up) cluster' = cnt_get (core_count s) cluster')).
  { subst up. rewrite exynos_power_up_u32.
    destruct ((EDCS_CPUS_PER_CLUSTER <=? to_u32 cpu)
              || (EDCS_CLUSTERS <=? to_u32 cluster)) eqn:Hr.
    { rewrite exynos_power_up_range by (rewrite !to_u32_idem; exact Hr).
      split; reflexivity. }
    destruct (range_check_inv _ _ Hr) as [Hcpu Hcl].
    destruct (exynos_power_up_tables s _ _ Hcpu Hcl Ht) as [Hu Hc].
    split.
    - intros Hne. destruct Hu as [-> | [v ->]]; [reflexivity|].
      exact (use_get_set_other _ _ _ _ _ _ _ Ht Hcpu Hcl Hcpu' Hcl' Hne).
    - intros Hne. destruct Hc as [-> | [v ->]]; [reflexivity|].
      exact (cnt_get_set_other _ _ _ _ _ Ht Hcl Hcl' Hne). }
  destruct Hup as [Hup1 Hup2].
  split; [exact Hup1|]. split; [exact Hup2|].
  subst down.
  destruct ((EDCS_CPUS_PER_CLUSTER <=? cpu_of c)
            || (EDCS_CLUSTERS <=? cluster_of c)) eqn:Hrange.
  { rewrite (exynos_power_down_range _ _ Hrange). split; reflexivity. }
  destruct (cpu_of_range _ Hrange) as (Hcpu & Hcl & Hcpu0 & Hcl0).
  destruct (exynos_power_down_tables c s Ht) as [Hu Hc].
  split.
  - intros Hne. destruct Hu as [-> | [v ->]]; [reflexivity|].
    exact (use_get_set_other _ _ _ _ _ _ _ Ht (conj Hcpu0 Hcpu)
             (conj Hcl0 Hcl) Hcpu' Hcl' Hne).
  - intros Hne. destruct Hc as [-> | [v ->]]; [reflexivity|].
    exact (cnt_get_set_other _ _ _ _ _ Ht (conj Hcl0 Hcl) Hcl' Hne).
Qed.

(** ** power_up followed by power_down *)

Lemma exynos_power_up_entry (s s' : state K) (cpu cluster r : Z) :
  exynos_power_up cpu cluster s = (Ret r, s') ->
  0 <= to_u32 cpu < EDCS_CPUS_PER_CLUSTER /\
  0 <= to_u32 cluster < EDCS_CLUSTERS /\ edcs_lock s = false.
Proof.
  intros Hrun.
  destruct ((EDCS_CPUS_PER_CLUSTER <=? to_u32 cpu)
            || (EDCS_CLUSTERS <=? to_u32 cluster)) eqn:Hr.
  { rewrite (exynos_power_up_range _ _ _ Hr) in Hrun. discriminate Hrun. }
  destruct (range_check_inv _ _ Hr) as [Hcpu Hcl].
  destruct (edcs_lock s) eqn:Hlock; [|repeat split; tauto].
  unfold exynos_power_up in Hrun. rewrite Hr in Hrun.
  revert Hrun. mcbv. rewrite Hlock. discriminate.
Qed.

(** X5.  A power-up request for a core followed by that core's
    power-down, both returning, leaves both tables exactly as they were
    and the lock free: the pair is a round trip on the bookkeeping,
    whether the core was down (0, 1, 0) or up (1, 2, 1). *)
Theorem power_up_down_round_trip
        (c : core) (s s1 s2 : state K) (r : Z) :
  tables_typed (edcs_use_count s) (core_count s) ->
  exynos_power_up (cpu_of c) (cluster_of c) s = (Ret r, s1) ->
  exynos_power_down c s1 = (Ret tt, s2) ->
  edcs_use_count s2 = edcs_use_count s /\
  core_count s2 = core_count s /\
  edcs_lock s2 = false.
Proof.
  intros Ht Hup Hdown.
  destruct (exynos_power_up_entry _ _ _ _ _ Hup) as (Hcpu & Hcl & Hlock).
  assert (Hu : to_u32 (cpu_of c) = cpu_of c) by apply to_u32_idem.
  assert (Hv : to_u32 (cluster_of c) = cluster_of c) by apply to_u32_idem.
  rewrite Hu in Hcpu. rewrite Hv in Hcl.
  pose proof (use_get_int _ _ _ _ Ht Hcpu Hcl) as Hold.
  pose proof (cnt_get_int _ _ _ Ht Hcl) as Hcnt.
  rewrite (exynos_power_up_run _ _ _ Hcpu Hcl Hlock Ht) in Hup.
  cbv zeta in Hup.
  set (old := use_get (edcs_use_count s) (cpu_of c) (cluster_of c)) in *.
  set (k0 := cnt_get (core_count s) (cluster_of c)) in *.
  assert (Hs1 :
    edcs_lock s1 = false /\
    ((to_s32 (old + 1) = 1 /\
      edcs_use_count s1
      = use_set (edcs_use_count s) (cpu_of c) (cluster_of c) 1 /\
      core_count s1
      = cnt_set (core_count s) (cluster_of c) (to_s32 (k0 + 1))) \/
     (to_s32 (old + 1) = 2 /\
      edcs_use_count s1
      = use_set (edcs_use_count s) (cpu_of c) (cluster_of c) 2 /\
      core_count s1 = core_count s))).
  { destruct (to_s32 (old + 1) =? 1) eqn:Hn1;
      [|destruct (to_s32 (old + 1) =? 2) eqn:Hn2; cbn [negb] in Hup;
        [|discriminate Hup]];
      apply (f_equal snd) in Hup; cbn [snd] in Hup; subst s1;
      cbn [edcs_lock edcs_use_count core_count].
    - apply Z.eqb_eq in Hn1. rewrite Hn1. split; [reflexivity|].
      left. repeat split.
    - apply Z.eqb_eq in Hn2. rewrite Hn2. split; [reflexivity|].
      right. repeat split. }
  clear Hup. destruct Hs1 as [Hlock1 [(Hn & Hu1 & Hc1) | (Hn & Hu1 & Hc1)]].
  - assert (Hold0 : old = 0)
      by (apply (to_s32_succ_is _ 1 Hold) in Hn; lia).
    assert (Ht1 : tables_typed (edcs_use_count s1) (core_count s1)).
    { rewrite Hu1, Hc1.
      apply cnt_set_typed; [|apply to_s32_small_int|exact Hcl].
      apply use_set_typed;
        [exact Ht|unfold is_int; lia|exact Hcpu|exact Hcl]. }
    rewrite (exynos_power_down_run c s1 (proj2 Hcpu) (proj2 Hcl) Hlock1 Ht1)
      in Hdown.
    cbv zeta in Hdown. rewrite Hu1, Hc1 in Hdown.
    rewrite (use_get_set _ _ _ _ _ Ht Hcpu Hcl) in Hdown.
    change (to_s32 (1 - 1) =? 0) with true in Hdown. cbv iota in Hdown.
    destruct (negb (_ =? CLUSTER_UP)) in Hdown; [discriminate Hdown|].
    apply (f_equal snd) in Hdown; cbn [snd] in Hdown; subst s2.
    cbn [edcs_use_count core_count edcs_lock].
    rewrite (cnt_get_set _ _ _ _ Ht Hcl).
    fold k0. rewrite (to_s32_succ_pred _ Hcnt).
    change (to_s32 (1 - 1)) with 0. rewrite <- Hold0. unfold old, k0.
    rewrite (use_set_set _ _ _ _ _ Ht Hcpu Hcl).
    rewrite (cnt_set_set _ _ _ _ Ht Hcl). repeat split.
  - assert (Hold1 : old = 1)
      by (apply (to_s32_succ_is _ 2 Hold) in Hn; lia).
    assert (Ht1 : tables_typed (edcs_use_count s1) (core_count s1)).
    { rewrite Hu1, Hc1.
      apply use_set_typed;
        [exact Ht|unfold is_int; lia|exact Hcpu|exact Hcl]. }
    rewrite (exynos_power_down_run c s1 (proj2 Hcpu) (proj2 Hcl) Hlock1 Ht1)
      in Hdown.
    cbv zeta in Hdown. rewrite Hu1, Hc1 in Hdown.
    rewrite (use_get_set _ _ _ _ _ Ht Hcpu Hcl) in Hdown.
    change (to_s32 (2 - 1) =? 0) with false in Hdown.
    change (to_s32 (2 - 1) =? 1) with true in Hdown. cbv iota in Hdown.
    destruct (negb (_ =? CLUSTER_UP)) in Hdown; [discriminate Hdown|].
    apply (f_equal snd) in Hdown; cbn [snd] in Hdown; subst s2.
    cbn [edcs_use_count core_count edcs_lock].
    change (to_s32 (2 - 1)) with 1. rewrite <- Hold1. unfold old.
    rewrite (use_set_set _ _ _ _ _ Ht Hcpu Hcl). repeat split.
Qed.

(** X6.  The accepted race, end to end.  A core whose use count is 1 is
    asked up again and then runs its power-down: both calls return, the
    tables end as they started, and between them the only calls made are
    the interrupt and lock bracketing, the coordinator notifications, the
    cluster-state check and the local-only cache teardown.  No register is
    touched, the GIC interface is not masked and the core does not
    suspend. *)
Theorem power_up_overtakes_power_down (c : core) (s : state K) :
  cpu_of c < EDCS_CPUS_PER_CLUSTER -> cluster_of c < EDCS_CLUSTERS ->
  edcs_lock s = false ->
  tables_typed (edcs_use_count s) (core_count s) ->
  let cpu := cpu_of c in
  let cluster := cluster_of c in
  use_get (edcs_use_count s) cpu cluster = 1 ->
  let up := [E_local_irq_disable; E_arch_spin_lock;
             E_arch_spin_unlock; E_local_irq_enable] in
  __mcpm_cluster_state cluster
    (kern_run (up ++ [E_mcpm_cpu_going_down cpu cluster; E_arch_spin_lock])
              (kern s))
  = CLUSTER_UP ->
  let tr := up ++ [E_mcpm_cpu_going_down cpu cluster; E_arch_spin_lock;
                   E_mcpm_cluster_state cluster CLUSTER_UP;
                   E_arch_spin_unlock; E_cache_teardown LocalOnly;
                   E_mcpm_cpu_down cpu cluster] in
  exists s1,
    exynos_power_up cpu cluster s = (Ret 0, s1) /\
    exynos_power_down c s1 =
    (Ret tt,
     State false (edcs_use_count s) (core_count s)
           (kern_run tr (kern s)) (trace s ++ tr)).
Proof.
  intros Hcpu Hcl Hlock Ht cpu cluster Hold up Hup tr.
  pose proof (to_u32_range (MPIDR_AFFINITY_LEVEL (mpidr_of c) 0)) as Hc0.
  pose proof (to_u32_range (MPIDR_AFFINITY_LEVEL (mpidr_of c) 1)) as Hl0.
  assert (Hcpu' : 0 <= cpu < EDCS_CPUS_PER_CLUSTER)
    by (unfold cpu, cpu_of in *; lia).
  assert (Hcl' : 0 <= cluster < EDCS_CLUSTERS)
    by (unfold cluster, cluster_of in *; lia).
  exists (State false (use_set (edcs_use_count s) cpu cluster 2)
                (core_count s) (kern_run up (kern s)) (trace s ++ up)).
  split.
  - rewrite (exynos_power_up_run _ _ _ Hcpu' Hcl' Hlock Ht). cbv zeta.
    rewrite Hold. change (to_s32 (1 + 1) =? 1) with false.
    change (negb (to_s32 (1 + 1) =? 2)) with false. cbv iota.
    reflexivity.
  - assert (Ht1 : tables_typed (use_set (edcs_use_count s) cpu cluster 2)
                               (core_count s)).
    { apply use_set_typed;
        [exact Ht|unfold is_int; lia|exact Hcpu'|exact Hcl']. }
    match goal with
    | |- exynos_power_down c ?s1 = _ =>
        rewrite (exynos_power_down_run c s1 Hcpu Hcl eq_refl Ht1)
    end.
    cbv zeta.
    cbn [edcs_use_count core_count kern trace]. fold cpu cluster.
    rewrite <- kern_run_app. rewrite Hup, Z.eqb_refl. cbn [negb].
    rewrite (use_get_set _ _ _ _ _ Ht Hcpu' Hcl').
    change (to_s32 (2 - 1) =? 0) with false.
    change (to_s32 (2 - 1) =? 1) with true. cbv iota.
    change (to_s32 (2 - 1)) with 1.
    rewrite <- Hold at 1. unfold cpu, cluster.
    rewrite (use_set_set _ _ _ _ _ Ht Hcpu' Hcl').
    unfold unlocked_transcript. subst tr up.
    rewrite <- !kern_run_app, <- !app_assoc. reflexivity.
Qed.

(** ** The suspend path of power_down *)

(** X7.  When the decrement in [exynos_power_down] yields 0 the core
    really goes down, and the run is exactly this: the going-down
    notification, the lock, the cluster-state check, [gic_cpu_if_down]
    (the lock is still held); the election call when the cluster count
    reached 0; the unlock; the whole-cluster teardown (L2 prefetch
    disabled first on a Cortex-A15, then the whole-cache teardown,
    [cci_disable_port_by_cpu] and the cluster-down notification) when the
    election was won, the local-only cache teardown otherwise; the
    core-down notification; the power gate called with [enable = false];
    [wfi].  It returns with the use count at 0, the cluster count one
    lower and the lock free. *)
Theorem power_down_suspends (c : core) (s : state K) :
  cpu_of c < EDCS_CPUS_PER_CLUSTER -> cluster_of c < EDCS_CLUSTERS ->
  edcs_lock s = false ->
  tables_typed (edcs_use_count s) (core_count s) ->
  let cpu := cpu_of c in
  let cluster := cluster_of c in
  __mcpm_cluster_state cluster
    (kern_run [E_mcpm_cpu_going_down cpu cluster; E_arch_spin_lock] (kern s))
  = CLUSTER_UP ->
  to_s32 (use_get (edcs_use_count s) cpu cluster - 1) = 0 ->
  let m := to_s32 (cnt_get (core_count s) cluster - 1) in
  let gic := [E_mcpm_cpu_going_down cpu cluster; E_arch_spin_lock;
              E_mcpm_cluster_state cluster CLUSTER_UP; E_gic_cpu_if_down] in
  let ok := __mcpm_outbound_enter_critical cpu cluster
              (kern_run gic (kern s)) in
  let elect :=
    if m =? 0 then [E_mcpm_outbound_enter_critical cpu cluster ok]
    else [] in
  let down :=
    if (m =? 0) && ok then
      (if read_cpuid_part_number c =? ARM_CPU_PART_CORTEX_A15
       then [E_l2_prefetch_disable] else []) ++
      [E_cache_teardown WholeCluster;
       E_cci_disable_port_by_cpu (mpidr_of c);
       E_mcpm_outbound_leave_critical cluster CLUSTER_DOWN]
    else [E_cache_teardown LocalOnly] in
  let tr1 := gic ++ elect ++ [E_arch_spin_unlock] ++ down ++
             [E_mcpm_cpu_down cpu cluster] in
  let tr := tr1 ++ gate_transcript cpu cluster false (kern_run tr1 (kern s))
                ++ [E_wfi] in
  exynos_power_down c s =
  (Ret tt,
   State false (use_set (edcs_use_count s) cpu cluster 0)
         (cnt_set (core_count s) cluster m)
         (kern_run tr (kern s)) (trace s ++ tr)).
Proof.
  intros Hcpu Hcl Hlock Ht cpu cluster Hup Hn m gic ok elect down tr1 tr.
  rewrite (exynos_power_down_run _ _ Hcpu Hcl Hlock Ht). cbv zeta.
  fold cpu cluster. rewrite Hup, Hn, Z.eqb_refl. cbn [negb].
  change (0 =? 0) with true. cbv iota. fold m.
  unfold unlocked_transcript. fold cpu cluster.
  subst tr tr1 down elect ok gic. cbn [app].
  destruct (m =? 0); cbn [andb app];
    [destruct (__mcpm_outbound_enter_critical _ _ _);
     [destruct (read_cpuid_part_number c =? ARM_CPU_PART_CORTEX_A15)|]|];
    cbn [app]; rewrite <- ?kern_run_app; cbn [app]; reflexivity.
Qed.

(** ** The election under the bookkeeping invariant *)

Lemma forall_other_cores (P : Z -> Prop) (cpu : Z) :
  (forall cpu', 0 <= cpu' < EDCS_CPUS_PER_CLUSTER -> cpu' <> cpu -> P cpu') <->
  (0 = cpu \/ P 0) /\ (1 = cpu \/ P 1) /\ (2 = cpu \/ P 2) /\ (3 = cpu \/ P 3).
Proof.
  unfold EDCS_CPUS_PER_CLUSTER. split.
  - intros Hall.
    repeat split;
      match goal with
      | |- ?i = cpu \/ _ =>
          destruct (Z.eq_dec i cpu) as [He | He];
          [left; exact He | right; apply Hall; lia]
      end.
  - intros (H0' & H1' & H2' & H3') cpu' Hr Hne.
    assert (Hc : cpu' = 0 \/ cpu' = 1 \/ cpu' = 2 \/ cpu' = 3) by lia.
    destruct Hc as [-> | [-> | [-> | ->]]];
      match goal with
      | Hd : ?i = cpu \/ P ?i |- P ?i =>
          destruct Hd as [Hd | Hd]; [exfalso; apply Hne; exact Hd | exact Hd]
      end.
Qed.

Lemma last_man_iff_others_idle t cc cpu cluster :
  tables_inv t cc ->
  0 <= cpu < EDCS_CPUS_PER_CLUSTER -> 0 <= cluster < EDCS_CLUSTERS ->
  (to_s32 (use_get t cpu cluster - 1) =? 0)
  && (to_s32 (cnt_get cc cluster - 1) =? 0) = true <->
  use_get t cpu cluster = 1 /\
  forall cpu', 0 <= cpu' < EDCS_CPUS_PER_CLUSTER -> cpu' <> cpu ->
               use_get t cpu' cluster = 0.
Proof.
  intros Hi Hcpu Hcl.
  rewrite (forall_other_cores (fun i => use_get t i cluster = 0) cpu).
  destruct (tables_inv_shape _ _ Hi)
    as (a0 & a1 & b0 & b1 & c0 & c1 & d0 & d1 & -> & -> & Hl).
  clear Hi. split_legal.
  destruct (in_range_cpu _ Hcpu) as [-> | [-> | [-> | ->]]];
    destruct (in_range_cluster _ Hcl) as [-> | ->];
    clear Hcpu Hcl;
    unfold cnt_get, use_get; simpl;
    repeat match goal with
           | Hx : use_count_legal ?x |- context [?x] =>
               destruct Hx as [-> | [-> | ->]]
           end;
    (split; intros Hx;
     [ vm_compute in Hx; try discriminate Hx; lia
     | first [reflexivity | exfalso; lia] ]).
Qed.

(** X8.  Under the bookkeeping invariant the election is sound: a
    returning [exynos_power_down] asks the coordinator for the exclusive
    teardown role exactly when the executing core's use count was 1 and
    every other core of its cluster has use count 0. *)
Theorem last_man_election_sound (c : core) (s s' : state K) :
  tables_inv (edcs_use_count s) (core_count s) ->
  exynos_power_down c s = (Ret tt, s') ->
  exists delta,
    trace s' = trace s ++ delta /\
    (existsb is_enter_critical delta = true <->
     use_get (edcs_use_count s) (cpu_of c) (cluster_of c) = 1 /\
     forall cpu', 0 <= cpu' < EDCS_CPUS_PER_CLUSTER -> cpu' <> cpu_of c ->
                  use_get (edcs_use_count s) cpu' (cluster_of c) = 0).
Proof.
  intros Hi Hrun.
  pose proof (tables_inv_typed _ _ Hi) as Ht.
  destruct ((EDCS_CPUS_PER_CLUSTER <=? cpu_of c)
            || (EDCS_CLUSTERS <=? cluster_of c)) eqn:Hrange.
  { rewrite (exynos_power_down_range _ _ Hrange) in Hrun.
    discriminate Hrun. }
  destruct (cpu_of_range _ Hrange) as (Hcpu & Hcl & Hcpu0 & Hcl0).
  destruct (edcs_lock s) eqn:Hlock.
  { rewrite (exynos_power_down_spin _ _ Hrange Hlock) in Hrun.
    discriminate Hrun. }
  pose proof (last_man_iff_others_idle _ _ _ _ Hi (conj Hcpu0 Hcpu)
                (conj Hcl0 Hcl)) as Hiff.
  rewrite (exynos_power_down_run _ _ Hcpu Hcl Hlock Ht) in Hrun.
  cbv zeta in Hrun.
  destruct (negb (_ =? CLUSTER_UP)) in Hrun; [discriminate Hrun|].
  destruct (to_s32 (use_get _ _ _ - 1) =? 0) eqn:Hn0;
    [|destruct (to_s32 (use_get _ _ _ - 1) =? 1) in Hrun;
      [|discriminate Hrun]];
    apply (f_equal snd) in Hrun; cbn [snd] in Hrun; subst s';
    cbn [trace]; eexists; (split; [reflexivity|]);
    rewrite <- Hiff; clear Hiff.
  - unfold unlocked_transcript, gate_transcript.
    destruct (to_s32 (cnt_get _ _ - 1) =? 0); cbn [andb].
    + destruct (__mcpm_outbound_enter_critical _ _ _);
        try destruct (read_cpuid_part_number c =? ARM_CPU_PART_CORTEX_A15);
        destruct (Z.land _ 3 =? _); split; reflexivity.
    + destruct (Z.land _ 3 =? _); split; intros Hf; exact Hf.
  - cbn [andb]. split; intros Hf; exact Hf.
Qed.

Lemma tables_inv_bounds t cc cpu cluster :
  tables_inv t cc ->
  0 <= cpu < EDCS_CPUS_PER_CLUSTER -> 0 <= cluster < EDCS_CLUSTERS ->
  0 <= use_get t cpu cluster <= 2 /\
  0 <= cnt_get cc cluster <= EDCS_CPUS_PER_CLUSTER.
Proof.
  intros Hi Hcpu Hcl.
  pose proof (tables_inv_legal _ _ _ _ Hi Hcpu Hcl) as Hlegal.
  split; [unfold use_count_legal in Hlegal; lia|].
  destruct (tables_inv_shape _ _ Hi)
    as (a0 & a1 & b0 & b1 & c0 & c1 & d0 & d1 & -> & -> & _).
  unfold EDCS_CPUS_PER_CLUSTER.
  destruct (in_range_cluster _ Hcl) as [-> | ->]; unfold cnt_get; simpl;
    repeat match goal with
           | |- context [1 <=? ?x] => destruct (1 <=? x)
           end; lia.
Qed.

(** X9.  In every state reached from the statics as [edcs_init] leaves
    them by an interleaving that does not halt, each cluster count lies
    between 0 and 4 and each use count between 0 and 2; so the [int]
    increment or decrement that the next request applies to them does not
    wrap. *)
Theorem reachable_counts_bounded
        (c : core) (k : K) (tr0 : list event) (r : Z)
        (acts : list action) (s0 s1 : state K) (cpu cluster : Z) :
  edcs_init c (zeroed k tr0) = (Ret r, s0) ->
  run acts s0 = (Ret tt, s1) ->
  0 <= cpu < EDCS_CPUS_PER_CLUSTER -> 0 <= cluster < EDCS_CLUSTERS ->
  let u := use_get (edcs_use_count s1) cpu cluster in
  let n := cnt_get (core_count s1) cluster in
  0 <= u <= 2 /\ 0 <= n <= EDCS_CPUS_PER_CLUSTER /\
  to_s32 (u + 1) = u + 1 /\ to_s32 (u - 1) = u - 1 /\
  to_s32 (n + 1) = n + 1 /\ to_s32 (n - 1) = n - 1.
Proof.
  intros Hinit Hrun Hcpu Hcl u n.
  pose proof (run_preserves _ _ _ (edcs_init_establishes _ _ _ _ _ Hinit)
                Hrun) as [_ Hinv].
  destruct (tables_inv_bounds _ _ _ _ Hinv Hcpu Hcl) as [Hu Hn].
  fold u n in Hu, Hn. unfold EDCS_CPUS_PER_CLUSTER in Hn.
  split; [exact Hu|]. split; [unfold EDCS_CPUS_PER_CLUSTER; exact Hn|].
  repeat split; apply to_s32_small; unfold is_int; lia.
Qed.

(** ** Bring-up *)

(** X10.  When the node is found, the CCI is probed and the boot core is
    in range, [edcs_init] on the zero-filled statics writes the entry
    vector, marks the boot core as the one active core (use count 1, its
    cluster's count 1, every other cell 0), sets the SMP operations and
    registers the platform operations.  It returns what
    [mcpm_platform_register] returned and calls [mcpm_sync_init] only when
    that is 0; the entry vector and the seeded tables stay in place when
    registration fails. *)
Theorem edcs_init_seeds (c : core) (k : K) (tr0 : list event) :
  let compat := "samsung,exynos5410"%string in
  let e2 := [E_of_find_compatible_node compat true; E_cci_probed true] in
  let e4 := e2 ++ [E_writel_relaxed (to_u32 mcpm_entry_point_phys)
                                    REG_ENTRY_ADDR;
                   E_mcpm_smp_set_ops] in
  let r := mcpm_platform_register (kern_run e4 k) in
  of_find_compatible_node compat k = true ->
  cci_probed (kern_run [E_of_find_compatible_node compat true] k) = true ->
  cpu_of c < EDCS_CPUS_PER_CLUSTER -> cluster_of c < EDCS_CLUSTERS ->
  exists s',
    edcs_init c (zeroed k tr0) = (Ret r, s') /\
    edcs_lock s' = false /\
    (forall cpu' cluster',
        0 <= cpu' < EDCS_CPUS_PER_CLUSTER ->
        0 <= cluster' < EDCS_CLUSTERS ->
        use_get (edcs_use_count s') cpu' cluster'
        = if (cpu' =? cpu_of c) && (cluster' =? cluster_of c)
          then 1 else 0) /\
    (forall cluster',
        0 <= cluster' < EDCS_CLUSTERS ->
        cnt_get (core_count s') cluster'
        = if cluster' =? cluster_of c then 1 else 0) /\
    trace s' =
    tr0 ++ e4 ++ E_mcpm_platform_register r ::
    (if r =? 0
     then [E_mcpm_sync_init; E_pr_info "EDCS power management initialized"]
     else []).
Proof.
  intros compat e2 e4 r Hnode Hprobed Hcpu Hcl.
  pose proof (to_u32_range (MPIDR_AFFINITY_LEVEL (mpidr_of c) 0)) as Hc0.
  pose proof (to_u32_range (MPIDR_AFFINITY_LEVEL (mpidr_of c) 1)) as Hl0.
  assert (Hcpu' : 0 <= cpu_of c < EDCS_CPUS_PER_CLUSTER)
    by (unfold cpu_of in *; lia).
  assert (Hcl' : 0 <= cluster_of c < EDCS_CLUSTERS)
    by (unfold cluster_of in *; lia).
  rewrite edcs_init_run. cbv zeta.
  cbn [kern trace edcs_lock edcs_use_count core_count zeroed].
  fold compat. rewrite Hnode. cbn [negb]. rewrite Hprobed. cbn [negb].
  rewrite (range_check_passes _ _ Hcpu' Hcl').
  eexists. split; [subst r e4 e2; cbn [app]; reflexivity|].
  cbn [edcs_lock edcs_use_count core_count trace].
  split; [reflexivity|]. split; [|split].
  - intros cpu' cluster' Hr1 Hr2.
    destruct (in_range_cpu _ Hcpu') as [-> | [-> | [-> | ->]]];
      destruct (in_range_cluster _ Hcl') as [-> | ->];
      destruct (in_range_cpu _ Hr1) as [-> | [-> | [-> | ->]]];
      destruct (in_range_cluster _ Hr2) as [-> | ->]; reflexivity.
  - intros cluster' Hr2.
    destruct (in_range_cluster _ Hcl') as [-> | ->];
      destruct (in_range_cluster _ Hr2) as [-> | ->]; reflexivity.
  - subst r e4 e2. cbn [app]. reflexivity.
Qed.

(** X11.  When the boot core's MPIDR is out of range, [edcs_init] halts
    at the BUG_ON of line 235 after the entry vector has been written to
    REG_ENTRY_ADDR: the tables are still as they were and neither the SMP
    operations nor the platform operations have been set. *)
Theorem edcs_init_boot_core_out_of_range (c : core) (s : state K) :
  let compat := "samsung,exynos5410"%string in
  let e3 := [E_of_find_compatible_node compat true; E_cci_probed true;
             E_writel_relaxed (to_u32 mcpm_entry_point_phys)
                              REG_ENTRY_ADDR] in
  of_find_compatible_node compat (kern s) = true ->
  cci_probed (kern_run [E_of_find_compatible_node compat true] (kern s))
  = true ->
  EDCS_CPUS_PER_CLUSTER <= cpu_of c \/ EDCS_CLUSTERS <= cluster_of c ->
  edcs_init c s =
  (Bug BUG_data_init_range,
   State (edcs_lock s) (edcs_use_count s) (core_count s)
         (kern_run e3 (kern s)) (trace s ++ e3)).
Proof.
  intros compat e3 Hnode Hprobed Hrange.
  rewrite edcs_init_run. cbv zeta. fold compat.
  rewrite Hnode. cbn [negb]. rewrite Hprobed. cbn [negb].
  assert (Hr : (EDCS_CPUS_PER_CLUSTER <=? cpu_of c)
               || (EDCS_CLUSTERS <=? cluster_of c) = true)
    by (apply orb_true_iff; rewrite !Z.leb_le; exact Hrange).
  rewrite Hr. reflexivity.
Qed.

(** ** Registers *)

(** X12.  When the PMU layout has room for the four cores of a cluster
    ([MAX_CPUS_PER_CLUSTER >= EDCS_CPUS_PER_CLUSTER]) and the register
    offsets of both clusters fit an [unsigned int]
    ([MAX_CPUS_PER_CLUSTER + EDCS_CPUS_PER_CLUSTER <= 2^25], so that
    [offset * 0x80] does not wrap), two in-range cores are gated through
    the same configuration register only if they are the same core, and
    no core's configuration register is another core's status register: a
    power-gate write for one core never lands on a register that the gate
    reads or writes for another. *)
Theorem pmu_registers_distinct (cpu cluster cpu' cluster' : Z) :
  EDCS_CPUS_PER_CLUSTER <= MAX_CPUS_PER_CLUSTER ->
  MAX_CPUS_PER_CLUSTER + EDCS_CPUS_PER_CLUSTER <= 2 ^ 25 ->
  0 <= cpu < EDCS_CPUS_PER_CLUSTER -> 0 <= cluster < EDCS_CLUSTERS ->
  0 <= cpu' < EDCS_CPUS_PER_CLUSTER -> 0 <= cluster' < EDCS_CLUSTERS ->
  let offset := to_u32 (cluster * MAX_CPUS_PER_CLUSTER + cpu) in
  let offset' := to_u32 (cluster' * MAX_CPUS_PER_CLUSTER + cpu') in
  (EDCS_CORE_CONFIGURATION offset = EDCS_CORE_CONFIGURATION offset' ->
   cpu = cpu' /\ cluster = cluster') /\
  (EDCS_CORE_STATUS offset = EDCS_CORE_STATUS offset' ->
   cpu = cpu' /\ cluster = cluster') /\
  EDCS_CORE_CONFIGURATION offset <> EDCS_CORE_STATUS offset'.
Proof.
  intros Hmin Hmax Hcpu Hcl Hcpu' Hcl' offset offset'.
  unfold EDCS_CPUS_PER_CLUSTER, EDCS_CLUSTERS in *.
  change (2 ^ 25) with 33554432 in Hmax.
  assert (Ho : offset = cluster * MAX_CPUS_PER_CLUSTER + cpu).
  { subst offset. apply to_u32_small. change (2 ^ 32) with 4294967296. nia. }
  assert (Ho' : offset' = cluster' * MAX_CPUS_PER_CLUSTER + cpu').
  { subst offset'. apply to_u32_small. change (2 ^ 32) with 4294967296.
    nia. }
  assert (Hb : 0 <= offset < 33554432) by (rewrite Ho; nia).
  assert (Hb' : 0 <= offset' < 33554432) by (rewrite Ho'; nia).
  unfold EDCS_CORE_STATUS, EDCS_CORE_CONFIGURATION.
  rewrite (to_u32_small (offset * 128))
    by (change (2 ^ 32) with 4294967296; lia).
  rewrite (to_u32_small (offset' * 128))
    by (change (2 ^ 32) with 4294967296; lia).
  rewrite Ho, Ho'.
  assert (Hc : cluster = 0 \/ cluster = 1) by lia.
  assert (Hc' : cluster' = 0 \/ cluster' = 1) by lia.
  destruct Hc as [-> | ->]; destruct Hc' as [-> | ->];
    repeat split; try intros Heq; lia.
Qed.

(** ** No recovery after a halt under the lock *)

(** X13.  When [exynos_power_up] halts at its use-count BUG, or
    [exynos_power_down] halts at its cluster-state or use-count BUG, the
    lock is left held; every later in-range request then spins on
    [arch_spin_lock] and touches neither table. *)
Theorem halt_under_lock_blocks
        (s s1 : state K) (cpu cluster : Z) (c : core) (b : bug_site) :
  tables_typed (edcs_use_count s) (core_count s) ->
  exynos_power_up cpu cluster s = (Bug BUG_power_up_count, s1) \/
  (exynos_power_down c s = (Bug b, s1) /\ b <> BUG_power_down_range) ->
  edcs_lock s1 = true /\
  (forall cpu' cluster',
      to_u32 cpu' < EDCS_CPUS_PER_CLUSTER ->
      to_u32 cluster' < EDCS_CLUSTERS ->
      exynos_power_up cpu' cluster' s1
      = (Spin, emits [E_local_irq_disable] s1)) /\
  (forall c',
      cpu_of c' < EDCS_CPUS_PER_CLUSTER ->
      cluster_of c' < EDCS_CLUSTERS ->
      exynos_power_down c' s1
      = (Spin, emits [E_mcpm_cpu_going_down (cpu_of c') (cluster_of c')]
                     s1)).
Proof.
  intros Ht Hhalt.
  assert (Hheld : edcs_lock s1 = true).
  { destruct Hhalt as [Hup | [Hdown Hb]].
    - rewrite exynos_power_up_u32 in Hup.
      destruct ((EDCS_CPUS_PER_CLUSTER <=? to_u32 cpu)
                || (EDCS_CLUSTERS <=? to_u32 cluster)) eqn:Hr.
      { rewrite exynos_power_up_range in Hup
          by (rewrite !to_u32_idem; exact Hr).
        discriminate Hup. }
      destruct (range_check_inv _ _ Hr) as [Hcpu Hcl].
      destruct (edcs_lock s) eqn:Hlock.
      { unfold exynos_power_up in Hup. rewrite !to_u32_idem, Hr in Hup.
        revert Hup. mcbv. rewrite Hlock. discriminate. }
      rewrite (exynos_power_up_run _ _ _ Hcpu Hcl Hlock Ht) in Hup.
      cbv zeta in Hup.
      destruct (_ =? 1) in Hup; [discriminate Hup|].
      destruct (negb (_ =? 2)) in Hup; [|discriminate Hup].
      apply (f_equal snd) in Hup. cbn [snd] in Hup. subst s1. reflexivity.
    - destruct ((EDCS_CPUS_PER_CLUSTER <=? cpu_of c)
                || (EDCS_CLUSTERS <=? cluster_of c)) eqn:Hrange.
      { rewrite (exynos_power_down_range _ _ Hrange) in Hdown.
        inversion Hdown; subst. contradiction. }
      destruct (cpu_of_range _ Hrange) as (Hcpu & Hcl & _ & _).
      destruct (edcs_lock s) eqn:Hlock.
      { rewrite (exynos_power_down_spin _ _ Hrange Hlock) in Hdown.
        discriminate Hdown. }
      rewrite (exynos_power_down_run _ _ Hcpu Hcl Hlock Ht) in Hdown.
      cbv zeta in Hdown.
      destruct (negb (_ =? CLUSTER_UP)) in Hdown;
        [|destruct (_ =? 0) in Hdown;
          [discriminate Hdown|destruct (_ =? 1) in Hdown;
                              [discriminate Hdown|]]];
        apply (f_equal snd) in Hdown; cbn [snd] in Hdown; subst s1;
        reflexivity. }
  split; [exact Hheld|]. split.
  - intros cpu' cluster' Hcpu' Hcl'.
    unfold exynos_power_up.
    assert (Hr : (EDCS_CPUS_PER_CLUSTER <=? to_u32 cpu')
                 || (EDCS_CLUSTERS <=? to_u32 cluster') = false)
      by (apply orb_false_iff; rewrite !Z.leb_gt; split; assumption).
    rewrite Hr. mcbv. rewrite Hheld. reflexivity.
  - intros c' Hcpu' Hcl'.
    apply exynos_power_down_spin; [|exact Hheld].
    apply orb_false_iff; rewrite !Z.leb_gt; split; assumption.
Qed.

End Further.
(** * The claims on the simulated board *)

Import Sim.

Lemma power_up_effect_witness :
  (0 <= 1 < EDCS_CPUS_PER_CLUSTER /\ 0 <= 0 < EDCS_CLUSTERS) /\
  edcs_lock Sim.booted = false /\
  use_get (edcs_use_count Sim.booted) 1 0 + 1 = 1 /\
  exynos_power_up 1 0 Sim.booted =
  (Ret 0,
   State false [[1; 0]; [1; 0]; [0; 0]; [0; 0]] [2; 0]
         (kern Sim.two_up) (trace Sim.two_up)).
Proof.
  assert (Hcpu : 0 <= 1 < EDCS_CPUS_PER_CLUSTER)
    by (unfold EDCS_CPUS_PER_CLUSTER; lia).
  assert (Hcl : 0 <= 0 < EDCS_CLUSTERS) by (unfold EDCS_CLUSTERS; lia).
  split; [exact (conj Hcpu Hcl)|].
  split; [reflexivity|]. split; [reflexivity|].
  destruct (power_up_effect Sim.booted 1 0 Hcpu Hcl eq_refl booted_typed)
    as (_ & Hone & _).
  rewrite (Hone eq_refl). vm_compute. reflexivity.
Defined.

Lemma edcs_counts_invariant_witness :
  exists s1,
    run [A_power_up 1 0; A_power_down_locked (Sim.core_of 0 0);
         A_power_up 0 0]
        Sim.booted = (Ret tt, s1) /\
    run [A_power_down_unlocked (Sim.core_of 0 0) false false;
         A_power_down (Sim.core_of 1 0)] s1
    = (Ret tt, snd (run [A_power_up 1 0; A_power_down_locked (Sim.core_of 0 0);
                         A_power_up 0 0;
                         A_power_down_unlocked (Sim.core_of 0 0) false false;
                         A_power_down (Sim.core_of 1 0)] Sim.booted)) /\
    edcs_lock s1 = false /\
    (forall cpu cluster,
        0 <= cpu < EDCS_CPUS_PER_CLUSTER -> 0 <= cluster < EDCS_CLUSTERS ->
        use_count_legal (use_get (edcs_use_count s1) cpu cluster)) /\
    (forall cluster,
        0 <= cluster < EDCS_CLUSTERS ->
        cnt_get (core_count s1) cluster
        = active_cores (edcs_use_count s1) cluster).
Proof.
  apply (edcs_counts_invariant (Sim.core_of 0 0) Sim.board0 [] 0
           [A_power_up 1 0; A_power_down_locked (Sim.core_of 0 0);
            A_power_up 0 0]
           [A_power_down_unlocked (Sim.core_of 0 0) false false;
            A_power_down (Sim.core_of 1 0)]).
  - vm_compute. reflexivity.
  - vm_compute. reflexivity.
Defined.

Lemma cluster_lost_typed :
  tables_typed (edcs_use_count cluster_lost) (core_count cluster_lost).
Proof. typed_tables. Qed.

(** Scenario A: the boot core is the only active core of its cluster and
    powers down; the election is attempted. *)
Lemma power_down_cluster_teardown_iff_witness :
  tables_typed (edcs_use_count booted) (core_count booted) /\
  exynos_power_down (core_of 0 0) booted
  = (Ret tt, snd (exynos_power_down (core_of 0 0) booted)) /\
  exists delta,
    trace (snd (exynos_power_down (core_of 0 0) booted))
    = trace booted ++ delta /\
    existsb is_enter_critical delta = true.
Proof.
  assert (Hrun : exynos_power_down (core_of 0 0) booted
                 = (Ret tt, snd (exynos_power_down (core_of 0 0) booted)))
    by (vm_compute; reflexivity).
  split; [exact booted_typed|]. split; [exact Hrun|].
  destruct (power_down_cluster_teardown_iff
              (core_of 0 0) booted _ booted_typed Hrun)
    as (delta & Htr & Hec & _).
  exists delta. split; [exact Htr | exact Hec].
Defined.

(** Scenario C: core 0 was asked up again before its power-down ran. *)
Lemma power_down_skip_suspend_witness :
  (cpu_of (core_of 0 0) < EDCS_CPUS_PER_CLUSTER /\
   cluster_of (core_of 0 0) < EDCS_CLUSTERS) /\
  edcs_lock raced = false /\
  __mcpm_cluster_state (cluster_of (core_of 0 0))
    (kern_run [E_mcpm_cpu_going_down (cpu_of (core_of 0 0))
                                     (cluster_of (core_of 0 0));
               E_arch_spin_lock] (kern raced)) = CLUSTER_UP /\
  to_s32 (use_get (edcs_use_count raced) (cpu_of (core_of 0 0))
                  (cluster_of (core_of 0 0)) - 1) = 1 /\
  fst (exynos_power_down (core_of 0 0) raced) = Ret tt /\
  trace (snd (exynos_power_down (core_of 0 0) raced)) =
  trace raced ++
  [E_mcpm_cpu_going_down 0 0; E_arch_spin_lock;
   E_mcpm_cluster_state 0 CLUSTER_UP; E_arch_spin_unlock;
   E_cache_teardown LocalOnly; E_mcpm_cpu_down 0 0].
Proof.
  assert (Hcpu : cpu_of (core_of 0 0) < EDCS_CPUS_PER_CLUSTER)
    by reflexivity.
  assert (Hcl : cluster_of (core_of 0 0) < EDCS_CLUSTERS) by reflexivity.
  assert (Hup : __mcpm_cluster_state (cluster_of (core_of 0 0))
                  (kern_run [E_mcpm_cpu_going_down (cpu_of (core_of 0 0))
                                                   (cluster_of (core_of 0 0));
                             E_arch_spin_lock] (kern raced)) = CLUSTER_UP)
    by reflexivity.
  assert (Hn : to_s32 (use_get (edcs_use_count raced) (cpu_of (core_of 0 0))
                               (cluster_of (core_of 0 0)) - 1) = 1)
    by reflexivity.
  split; [exact (conj Hcpu Hcl)|].
  split; [reflexivity|]. split; [exact Hup|]. split; [exact Hn|].
  rewrite (power_down_skip_suspend (core_of 0 0) raced Hcpu Hcl eq_refl
             raced_typed Hup Hn).
  split; reflexivity.
Defined.


Lemma power_down_unlock_before_cache_witness :
  edcs_lock booted = false /\
  exynos_power_down (core_of 0 0) booted
  = (Ret tt, snd (exynos_power_down (core_of 0 0) booted)) /\
  exists delta,
    trace (snd (exynos_power_down (core_of 0 0) booted))
    = trace booted ++ delta /\
    cache_outside_lock false delta = true /\
    exists pre post flags s1,
      delta = pre ++ E_arch_spin_unlock :: post /\
      power_down_locked (core_of 0 0) booted = (Ret flags, s1) /\
      trace s1 = trace booted ++ pre ++ [E_arch_spin_unlock] /\
      edcs_lock s1 = false /\
      power_down_unlocked (core_of 0 0) flags s1
      = (Ret tt, snd (exynos_power_down (core_of 0 0) booted)).
Proof.
  assert (Hrun : exynos_power_down (core_of 0 0) booted
                 = (Ret tt, snd (exynos_power_down (core_of 0 0) booted)))
    by (vm_compute; reflexivity).
  split; [reflexivity|]. split; [exact Hrun|].
  destruct (power_down_unlock_before_cache
              (core_of 0 0) booted _ _ eq_refl booted_typed Hrun)
    as (delta & Htr & Hout & _ & Hret).
  destruct (Hret eq_refl)
    as (pre & post & flags & s1 & Hd & _ & _ & _ & Hl & Htr1 & Hlock1
        & Hu & _).
  exists delta. split; [exact Htr|]. split; [exact Hout|].
  exists pre, post, flags, s1.
  split; [exact Hd|]. split; [exact Hl|]. split; [exact Htr1|].
  split; [exact Hlock1 | exact Hu].
Defined.

(** The coordinator believes cluster 0 is down when its core 0 starts to
    power down. *)
Lemma power_down_cluster_state_check_witness :
  (cpu_of (core_of 0 0) < EDCS_CPUS_PER_CLUSTER /\
   cluster_of (core_of 0 0) < EDCS_CLUSTERS) /\
  edcs_lock cluster_lost = false /\
  __mcpm_cluster_state (cluster_of (core_of 0 0))
    (kern_run [E_mcpm_cpu_going_down (cpu_of (core_of 0 0))
                                     (cluster_of (core_of 0 0));
               E_arch_spin_lock] (kern cluster_lost)) <> CLUSTER_UP /\
  fst (exynos_power_down (core_of 0 0) cluster_lost)
  = Bug BUG_power_down_cluster /\
  edcs_use_count (snd (exynos_power_down (core_of 0 0) cluster_lost))
  = edcs_use_count cluster_lost.
Proof.
  assert (Hcpu : cpu_of (core_of 0 0) < EDCS_CPUS_PER_CLUSTER)
    by reflexivity.
  assert (Hcl : cluster_of (core_of 0 0) < EDCS_CLUSTERS) by reflexivity.
  assert (Hst : __mcpm_cluster_state (cluster_of (core_of 0 0))
                  (kern_run [E_mcpm_cpu_going_down (cpu_of (core_of 0 0))
                                                   (cluster_of (core_of 0 0));
                             E_arch_spin_lock] (kern cluster_lost))
                <> CLUSTER_UP)
    by (vm_compute; discriminate).
  split; [exact (conj Hcpu Hcl)|].
  split; [reflexivity|]. split; [exact Hst|].
  destruct (power_down_cluster_state_check (core_of 0 0) cluster_lost
              Hcpu Hcl eq_refl cluster_lost_typed) as (_ & Hdown & _).
  rewrite (Hdown Hst). split; reflexivity.
Defined.

Lemma power_down_skip_keeps_count_witness :
  edcs_lock raced = false /\
  exynos_power_down (core_of 0 0) raced
  = (Ret tt, snd (exynos_power_down (core_of 0 0) raced)) /\
  to_s32 (use_get (edcs_use_count raced) (cpu_of (core_of 0 0))
                  (cluster_of (core_of 0 0)) - 1) = 1 /\
  core_count (snd (exynos_power_down (core_of 0 0) raced))
  = core_count raced.
Proof.
  assert (Hrun : exynos_power_down (core_of 0 0) raced
                 = (Ret tt, snd (exynos_power_down (core_of 0 0) raced)))
    by (vm_compute; reflexivity).
  assert (Hn : to_s32 (use_get (edcs_use_count raced) (cpu_of (core_of 0 0))
                               (cluster_of (core_of 0 0)) - 1) = 1)
    by reflexivity.
  split; [reflexivity|]. split; [exact Hrun|]. split; [exact Hn|].
  destruct (power_down_skip_keeps_count
              (core_of 0 0) raced _ _ eq_refl raced_typed Hrun)
    as (delta & _ & Hskip & _).
  exact (proj1 (Hskip Hn)).
Defined.

(** A board whose device tree has no Exynos5410 node. *)
Lemma edcs_init_not_applicable_witness :
  of_find_compatible_node "samsung,exynos5410"
                          (kern (zeroed board_other [])) = false /\
  exists s' delta,
    edcs_init (core_of 0 0) (zeroed board_other []) = (Ret (- ENODEV), s') /\
    edcs_lock s' = false /\
    edcs_use_count s' = [[0; 0]; [0; 0]; [0; 0]; [0; 0]] /\
    core_count s' = [0; 0] /\
    trace s' = [] ++ delta /\
    kern s' = kern_run delta board_other /\
    (delta = [E_of_find_compatible_node "samsung,exynos5410" false] \/
     delta = [E_of_find_compatible_node "samsung,exynos5410" true;
              E_cci_probed false]).
Proof.
  assert (Hnode : of_find_compatible_node
                    "samsung,exynos5410" (kern (zeroed board_other []))
                  = false)
    by reflexivity.
  split; [exact Hnode|].
  exact (edcs_init_not_applicable (core_of 0 0) (zeroed board_other [])
           (or_introl Hnode)).
Defined.

(** Core 1 of cluster 0 is off and is powered up twice in a row: the
    simulated status follows the first write. *)
Lemma power_gate_idempotent_witness :
  (0 <= 1 < EDCS_CPUS_PER_CLUSTER /\ 0 <= 0 < EDCS_CLUSTERS) /\
  gate_observed 1 0
    (kern (snd (exynos_core_power_control 1 0 true booted)))
  = gate_desired true /\
  bus_writes
    (trace (snd (exynos_core_power_control 1 0 true
                   (snd (exynos_core_power_control 1 0 true booted)))))
  = bus_writes (trace booted) + 1.
Proof.
  assert (Hcpu : 0 <= 1 < EDCS_CPUS_PER_CLUSTER)
    by (unfold EDCS_CPUS_PER_CLUSTER; lia).
  assert (Hcl : 0 <= 0 < EDCS_CLUSTERS) by (unfold EDCS_CLUSTERS; lia).
  assert (Hsettled : gate_observed 1 0
                       (kern (snd (exynos_core_power_control 1 0 true booted)))
                     = gate_desired true)
    by reflexivity.
  split; [exact (conj Hcpu Hcl)|]. split; [exact Hsettled|].
  destruct (power_gate_idempotent booted 1 0 true Hcpu Hcl)
    as (_ & _ & _ & _ & _ & _ & _ & Hsecond).
  rewrite (proj2 (Hsecond Hsettled)). reflexivity.
Defined.

(** C9, as stated, fails.  Core 0 of cluster 0 is already powered: its
    status reads 3, the desired value.  Two calls of the power gate with
    [enable = true] make no bus write at all. *)
Lemma power_gate_twice_already_on :
  gate_observed 0 0 (kern booted) = gate_desired true /\
  bus_writes
    (trace (snd (exynos_core_power_control 0 0 true
                   (snd (exynos_core_power_control 0 0 true booted)))))
  = bus_writes (trace booted) /\
  bus_writes
    (trace (snd (exynos_core_power_control 0 0 true
                   (snd (exynos_core_power_control 0 0 true booted)))))
  <> bus_writes (trace booted) + 1.
Proof.
  split; [reflexivity|]. split; [reflexivity|].
  vm_compute. discriminate.
Qed.

(** With a status register that does not follow the configuration write
    (here: it always reads 0), each of the two calls writes. *)
Example power_gate_twice_lagging_status :
  bus_writes
    (trace (snd (@exynos_core_power_control exynos5410 unit stuck_kernel
                   0 0 true
                   (snd (@exynos_core_power_control exynos5410 unit
                           stuck_kernel 0 0 true (zeroed tt []))))))
  = 2.
Proof. reflexivity. Qed.

(** * The further properties on the simulated board *)

Lemma booted_inv : tables_inv (edcs_use_count booted) (core_count booted).
Proof.
  assert (Hinit : edcs_init (core_of 0 0) (zeroed board0 [])
                  = (Ret 0, booted)) by (vm_compute; reflexivity).
  exact (proj2 (edcs_init_establishes _ _ _ _ _ Hinit)).
Qed.

(** Core index 4 does not exist. *)
Lemma power_up_range_check_witness :
  EDCS_CPUS_PER_CLUSTER <= to_u32 4 /\
  exynos_power_up 4 0 booted = (Bug BUG_power_up_range, booted).
Proof.
  assert (Hr : EDCS_CPUS_PER_CLUSTER <= to_u32 4) by (vm_compute; discriminate).
  split; [exact Hr|].
  destruct (power_up_range_check booted 4 0) as [[_ Hhalt] Hsame].
  pose proof (Hhalt (or_introl Hr)) as Hbug.
  pose proof (Hsame Hbug) as Hs.
  destruct (exynos_power_up 4 0 booted) as [r1 s1].
  cbn [fst snd] in Hbug, Hs. rewrite Hbug, Hs. reflexivity.
Defined.

(** An MPIDR whose affinity level 0 is 5. *)
Lemma power_down_range_check_witness :
  EDCS_CPUS_PER_CLUSTER <= cpu_of (core_of 5 0) /\
  exynos_power_down (core_of 5 0) booted = (Bug BUG_power_down_range, booted).
Proof.
  assert (Hr : EDCS_CPUS_PER_CLUSTER <= cpu_of (core_of 5 0))
    by (vm_compute; discriminate).
  split; [exact Hr|].
  destruct (power_down_range_check (core_of 5 0) booted)
    as [[_ Hhalt] Hsame].
  pose proof (Hhalt (or_introl Hr)) as Hbug.
  pose proof (Hsame Hbug) as Hs.
  destruct (exynos_power_down (core_of 5 0) booted) as [r1 s1].
  cbn [fst snd] in Hbug, Hs. rewrite Hbug, Hs. reflexivity.
Defined.

(** A third power-up of core 0, whose use count is already 2. *)
Lemma power_up_fatal_count_witness :
  (0 <= 0 < EDCS_CPUS_PER_CLUSTER /\ 0 <= 0 < EDCS_CLUSTERS) /\
  edcs_lock raced = false /\
  use_get (edcs_use_count raced) 0 0 = 2 /\
  fst (exynos_power_up 0 0 raced) = Bug BUG_power_up_count /\
  edcs_lock (snd (exynos_power_up 0 0 raced)) = true /\
  edcs_use_count (snd (exynos_power_up 0 0 raced))
  = [[3; 0]; [0; 0]; [0; 0]; [0; 0]].
Proof.
  assert (Hcpu : 0 <= 0 < EDCS_CPUS_PER_CLUSTER)
    by (unfold EDCS_CPUS_PER_CLUSTER; lia).
  assert (Hcl : 0 <= 0 < EDCS_CLUSTERS) by (unfold EDCS_CLUSTERS; lia).
  assert (Hlock : edcs_lock raced = false) by reflexivity.
  split; [exact (conj Hcpu Hcl)|]. split; [exact Hlock|].
  split; [reflexivity|].
  destruct (power_up_fatal_count raced 0 0 Hcpu Hcl Hlock raced_typed)
    as [_ Hhalt].
  rewrite Hhalt by (vm_compute; discriminate).
  repeat split.
Defined.

Lemma power_requests_frame_witness :
  (0 <= 2 < EDCS_CPUS_PER_CLUSTER /\ 0 <= 1 < EDCS_CLUSTERS) /\
  use_get (edcs_use_count (snd (exynos_power_up 1 0 booted))) 2 1
  = use_get (edcs_use_count booted) 2 1 /\
  cnt_get (core_count (snd (exynos_power_down (core_of 0 0) booted))) 1
  = cnt_get (core_count booted) 1.
Proof.
  assert (Hcpu : 0 <= 2 < EDCS_CPUS_PER_CLUSTER)
    by (unfold EDCS_CPUS_PER_CLUSTER; lia).
  assert (Hcl : 0 <= 1 < EDCS_CLUSTERS) by (unfold EDCS_CLUSTERS; lia).
  split; [exact (conj Hcpu Hcl)|].
  destruct (power_requests_frame booted 1 0 (core_of 0 0) 2 1
              booted_typed Hcpu Hcl) as (Hup & _ & _ & Hdown).
  split.
  - apply Hup. left. vm_compute. discriminate.
  - apply Hdown. vm_compute. discriminate.
Defined.

(** Core 1 of cluster 0 is powered up and powers down again. *)
Lemma power_up_down_round_trip_witness :
  exynos_power_up (cpu_of (core_of 1 0)) (cluster_of (core_of 1 0)) booted
  = (Ret 0, two_up) /\
  exynos_power_down (core_of 1 0) two_up
  = (Ret tt, snd (exynos_power_down (core_of 1 0) two_up)) /\
  edcs_use_count (snd (exynos_power_down (core_of 1 0) two_up))
  = edcs_use_count booted /\
  core_count (snd (exynos_power_down (core_of 1 0) two_up))
  = core_count booted.
Proof.
  assert (Hup : exynos_power_up (cpu_of (core_of 1 0))
                                (cluster_of (core_of 1 0)) booted
                = (Ret 0, two_up)) by (vm_compute; reflexivity).
  assert (Hdown : exynos_power_down (core_of 1 0) two_up
                  = (Ret tt, snd (exynos_power_down (core_of 1 0) two_up)))
    by (vm_compute; reflexivity).
  split; [exact Hup|]. split; [exact Hdown|].
  destruct (power_up_down_round_trip (core_of 1 0) booted two_up _ 0
              booted_typed Hup Hdown) as (Hu & Hc & _).
  split; [exact Hu | exact Hc].
Defined.

(** Scenario C from the start: the boot core is asked up while it is up,
    then runs its power-down. *)
Lemma power_up_overtakes_power_down_witness :
  (cpu_of (core_of 0 0) < EDCS_CPUS_PER_CLUSTER /\
   cluster_of (core_of 0 0) < EDCS_CLUSTERS) /\
  edcs_lock booted = false /\
  use_get (edcs_use_count booted) (cpu_of (core_of 0 0))
          (cluster_of (core_of 0 0)) = 1 /\
  exists s1,
    exynos_power_up 0 0 booted = (Ret 0, s1) /\
    fst (exynos_power_down (core_of 0 0) s1) = Ret tt /\
    edcs_use_count (snd (exynos_power_down (core_of 0 0) s1))
    = edcs_use_count booted.
Proof.
  assert (Hcpu : cpu_of (core_of 0 0) < EDCS_CPUS_PER_CLUSTER)
    by reflexivity.
  assert (Hcl : cluster_of (core_of 0 0) < EDCS_CLUSTERS) by reflexivity.
  assert (Hlock : edcs_lock booted = false) by reflexivity.
  assert (Hold : use_get (edcs_use_count booted) (cpu_of (core_of 0 0))
                         (cluster_of (core_of 0 0)) = 1) by reflexivity.
  split; [exact (conj Hcpu Hcl)|]. split; [exact Hlock|].
  split; [exact Hold|].
  destruct (power_up_overtakes_power_down (core_of 0 0) booted Hcpu Hcl
              Hlock booted_typed Hold)
    as (s1 & Hup & Hdown); [vm_compute; reflexivity|].
  exists s1. split; [exact Hup|]. rewrite Hdown. split; reflexivity.
Defined.

(** Scenario A: the only active core of the cluster powers down. *)
Lemma power_down_suspends_witness :
  (cpu_of (core_of 0 0) < EDCS_CPUS_PER_CLUSTER /\
   cluster_of (core_of 0 0) < EDCS_CLUSTERS) /\
  edcs_lock booted = false /\
  to_s32 (use_get (edcs_use_count booted) (cpu_of (core_of 0 0))
                  (cluster_of (core_of 0 0)) - 1) = 0 /\
  exists s',
    exynos_power_down (core_of 0 0) booted = (Ret tt, s') /\
    edcs_use_count s' = [[0; 0]; [0; 0]; [0; 0]; [0; 0]] /\
    core_count s' = [0; 0].
Proof.
  assert (Hcpu : cpu_of (core_of 0 0) < EDCS_CPUS_PER_CLUSTER)
    by reflexivity.
  assert (Hcl : cluster_of (core_of 0 0) < EDCS_CLUSTERS) by reflexivity.
  assert (Hlock : edcs_lock booted = false) by reflexivity.
  assert (Hup : __mcpm_cluster_state (cluster_of (core_of 0 0))
                  (kern_run [E_mcpm_cpu_going_down (cpu_of (core_of 0 0))
                                                   (cluster_of (core_of 0 0));
                             E_arch_spin_lock] (kern booted)) = CLUSTER_UP)
    by reflexivity.
  assert (Hn : to_s32 (use_get (edcs_use_count booted)
                               (cpu_of (core_of 0 0))
                               (cluster_of (core_of 0 0)) - 1) = 0)
    by reflexivity.
  split; [exact (conj Hcpu Hcl)|]. split; [exact Hlock|]. split; [exact Hn|].
  exists (snd (exynos_power_down (core_of 0 0) booted)).
  rewrite (power_down_suspends (core_of 0 0) booted Hcpu Hcl Hlock
             booted_typed Hup Hn).
  cbn [snd edcs_use_count core_count].
  split; [reflexivity|]. split; reflexivity.
Defined.

Lemma last_man_election_sound_witness :
  exynos_power_down (core_of 0 0) booted
  = (Ret tt, snd (exynos_power_down (core_of 0 0) booted)) /\
  exists delta,
    trace (snd (exynos_power_down (core_of 0 0) booted))
    = trace booted ++ delta /\
    (existsb is_enter_critical delta = true <->
     use_get (edcs_use_count booted) (cpu_of (core_of 0 0))
             (cluster_of (core_of 0 0)) = 1 /\
     forall cpu', 0 <= cpu' < EDCS_CPUS_PER_CLUSTER ->
                  cpu' <> cpu_of (core_of 0 0) ->
                  use_get (edcs_use_count booted) cpu'
                          (cluster_of (core_of 0 0)) = 0).
Proof.
  assert (Hrun : exynos_power_down (core_of 0 0) booted
                 = (Ret tt, snd (exynos_power_down (core_of 0 0) booted)))
    by (vm_compute; reflexivity).
  split; [exact Hrun|].
  exact (last_man_election_sound (core_of 0 0) booted _ booted_inv Hrun).
Defined.

Lemma reachable_counts_bounded_witness :
  edcs_init (core_of 0 0) (zeroed board0 []) = (Ret 0, booted) /\
  run [A_power_up 1 0] booted = (Ret tt, two_up) /\
  0 <= cnt_get (core_count two_up) 0 <= EDCS_CPUS_PER_CLUSTER.
Proof.
  assert (Hinit : edcs_init (core_of 0 0) (zeroed board0 [])
                  = (Ret 0, booted)) by (vm_compute; reflexivity).
  assert (Hrun : run [A_power_up 1 0] booted = (Ret tt, two_up))
    by (vm_compute; reflexivity).
  assert (Hcpu : 0 <= 0 < EDCS_CPUS_PER_CLUSTER)
    by (unfold EDCS_CPUS_PER_CLUSTER; lia).
  assert (Hcl : 0 <= 0 < EDCS_CLUSTERS) by (unfold EDCS_CLUSTERS; lia).
  split; [exact Hinit|]. split; [exact Hrun|].
  exact (proj1 (proj2 (reachable_counts_bounded
                         (core_of 0 0) board0 [] 0 [A_power_up 1 0]
                         booted two_up 0 0 Hinit Hrun Hcpu Hcl))).
Defined.

Lemma edcs_init_seeds_witness :
  of_find_compatible_node "samsung,exynos5410" board0 = true /\
  (cpu_of (core_of 0 0) < EDCS_CPUS_PER_CLUSTER /\
   cluster_of (core_of 0 0) < EDCS_CLUSTERS) /\
  exists s',
    edcs_init (core_of 0 0) (zeroed board0 []) = (Ret 0, s') /\
    use_get (edcs_use_count s') 0 0 = 1 /\
    use_get (edcs_use_count s') 1 0 = 0.
Proof.
  assert (Hnode : of_find_compatible_node "samsung,exynos5410" board0 = true)
    by reflexivity.
  assert (Hcpu : cpu_of (core_of 0 0) < EDCS_CPUS_PER_CLUSTER)
    by reflexivity.
  assert (Hcl : cluster_of (core_of 0 0) < EDCS_CLUSTERS) by reflexivity.
  split; [exact Hnode|]. split; [exact (conj Hcpu Hcl)|].
  destruct (edcs_init_seeds (core_of 0 0) board0 [] Hnode eq_refl Hcpu Hcl)
    as (s' & Hrun & _ & Huse & _).
  exists s'. split; [exact Hrun|].
  split.
  - exact (Huse 0 0 ltac:(unfold EDCS_CPUS_PER_CLUSTER; lia)
                ltac:(unfold EDCS_CLUSTERS; lia)).
  - exact (Huse 1 0 ltac:(unfold EDCS_CPUS_PER_CLUSTER; lia)
                ltac:(unfold EDCS_CLUSTERS; lia)).
Defined.

(** A boot core whose MPIDR gives core index 7. *)
Lemma edcs_init_boot_core_out_of_range_witness :
  of_find_compatible_node "samsung,exynos5410" (kern (zeroed board0 []))
  = true /\
  EDCS_CPUS_PER_CLUSTER <= cpu_of (core_of 7 0) /\
  fst (edcs_init (core_of 7 0) (zeroed board0 [])) = Bug BUG_data_init_range /\
  bus_writes (trace (snd (edcs_init (core_of 7 0) (zeroed board0 [])))) = 1.
Proof.
  assert (Hnode : of_find_compatible_node
                    "samsung,exynos5410" (kern (zeroed board0 [])) = true)
    by reflexivity.
  assert (Hr : EDCS_CPUS_PER_CLUSTER <= cpu_of (core_of 7 0))
    by (vm_compute; discriminate).
  split; [exact Hnode|]. split; [exact Hr|].
  rewrite (edcs_init_boot_core_out_of_range (core_of 7 0) (zeroed board0 [])
             Hnode eq_refl (or_introl Hr)).
  split; reflexivity.
Defined.

(** Core 0 of each cluster on the Exynos5410 layout. *)
Lemma pmu_registers_distinct_witness :
  EDCS_CPUS_PER_CLUSTER <= MAX_CPUS_PER_CLUSTER /\
  MAX_CPUS_PER_CLUSTER + EDCS_CPUS_PER_CLUSTER <= 2 ^ 25 /\
  EDCS_CORE_CONFIGURATION (to_u32 (0 * MAX_CPUS_PER_CLUSTER + 0))
  <> EDCS_CORE_STATUS (to_u32 (1 * MAX_CPUS_PER_CLUSTER + 0)).
Proof.
  assert (Hmin : EDCS_CPUS_PER_CLUSTER <= MAX_CPUS_PER_CLUSTER)
    by (vm_compute; discriminate).
  assert (Hmax : MAX_CPUS_PER_CLUSTER + EDCS_CPUS_PER_CLUSTER <= 2 ^ 25)
    by (vm_compute; discriminate).
  assert (Hcpu : 0 <= 0 < EDCS_CPUS_PER_CLUSTER)
    by (unfold EDCS_CPUS_PER_CLUSTER; lia).
  assert (Hcl0 : 0 <= 0 < EDCS_CLUSTERS) by (unfold EDCS_CLUSTERS; lia).
  assert (Hcl1 : 0 <= 1 < EDCS_CLUSTERS) by (unfold EDCS_CLUSTERS; lia).
  split; [exact Hmin|]. split; [exact Hmax|].
  exact (proj2 (proj2 (pmu_registers_distinct 0 0 0 1
                         Hmin Hmax Hcpu Hcl0 Hcpu Hcl1))).
Defined.

(** After the third power-up of core 0 has halted, core 1 cannot be
    powered up any more. *)
Lemma halt_under_lock_blocks_witness :
  exynos_power_up 0 0 raced
  = (Bug BUG_power_up_count, snd (exynos_power_up 0 0 raced)) /\
  fst (exynos_power_up 1 0 (snd (exynos_power_up 0 0 raced))) = Spin.
Proof.
  assert (Hhalt : exynos_power_up 0 0 raced
                  = (Bug BUG_power_up_count, snd (exynos_power_up 0 0 raced)))
    by (vm_compute; reflexivity).
  split; [exact Hhalt|].
  destruct (halt_under_lock_blocks raced _ 0 0 (core_of 0 0)
              BUG_power_up_count raced_typed (or_introl Hhalt))
    as (_ & Hup & _).
  rewrite (Hup 1 0) by reflexivity. reflexivity.
Defined.
